(** * Chatbot backend: session/interaction lifecycle, cache coherency, tokens

    A shallow embedding of the service layer of the chatbot backend
    ([app/services/cache_service.py], [app/services/chat_service.py],
    [app/services/auth_service.py], [app/services/ai_service.py], the
    helpers of [app/utils] and the history and session routes), followed
    by the properties of the specification that speak about them.

    Conventions of the embedding:
    - a naive [datetime] is an integer number of seconds ([Z]); the
      clock of the process is the field [now] of the world and does not
      move inside one service call;
    - MongoDB is a pair of collections, each a list of documents in
      insertion order, with the unique indexes that [app/main.py]
      creates on [session_id] and [interaction_id];
    - Redis is a key-value store with an optional expiry instant per key;
      the three key families ["session:<id>"], ["interaction:<id>"] and
      ["rate_limit:<user>"] never collide (their first characters
      differ), so each family is a finite map keyed by the suffix;
    - both stores can be unreachable ([mongo_up], [redis_up]); every
      client call then raises;
    - a coroutine is a function from the world to an outcome and the
      next world; an exception does not roll anything back. *)

From Stdlib Require Import ZArith String List Lia Bool Ascii.
From stdpp Require Import base option list strings gmap pretty.

Local Open Scope string_scope.
Local Open Scope list_scope.
Local Open Scope Z_scope.

(** ** Exceptions and outcomes *)

Inductive exn : Type :=
| ValueError (msg : string)
| PyMongoError (msg : string)
| RedisError (msg : string)
| JWTError (msg : string)
| PlainException (msg : string).

(** [str(e)] *)
Definition exn_str (e : exn) : string :=
  match e with
  | ValueError m | PyMongoError m | RedisError m | JWTError m
  | PlainException m => m
  end.

Definition is_ValueError (e : exn) : bool :=
  match e with ValueError _ => true | _ => false end.

Inductive result (A : Type) : Type :=
| Ok (a : A)
| Raise (e : exn).
Arguments Ok {A} a.
Arguments Raise {A} e.

(** ** Documents and cached snapshots *)

(** [format_timestamp(dt)]: the text [dt.isoformat() + "Z"], kept as the
    instant it denotes. *)
Inductive iso8601 : Type := Iso (t : Z).

Definition format_timestamp (dt : Z) : iso8601 := Iso dt.

Definition metadata_t : Type := list (string * string).

(** [message_pair(...)] of [models/db_models.py], a MongoDB sub-document. *)
Record message_doc : Type := MessageDoc {
  md_message_id : string;
  md_user_message : string;
  md_ai_response : string;
  md_timestamp : Z;
  md_metadata : metadata_t
}.

(** A message as it is cached and as the history endpoint returns it; the
    cached dictionaries carry no ["metadata"] key. *)
Record message_view : Type := MessageView {
  mv_message_id : string;
  mv_user_message : string;
  mv_ai_response : string;
  mv_timestamp : iso8601;
  mv_metadata : option metadata_t
}.

Record session_doc : Type := SessionDoc {
  sd_session_id : string;
  sd_user_id : string;
  sd_interaction_ids : list string;
  sd_created_at : Z;
  sd_last_active : Z;
  sd_is_active : bool
}.

Record session_snapshot : Type := SessionSnapshot {
  ss_session_id : string;
  ss_user_id : string;
  ss_interaction_ids : list string;
  ss_created_at : iso8601;
  ss_last_active : iso8601
}.

Record interaction_doc : Type := InteractionDoc {
  id_interaction_id : string;
  id_session_id : string;
  id_user_id : string;
  id_messages : list message_doc;
  id_created_at : Z;
  id_updated_at : Z;
  id_last_message_at : Z;
  id_is_active : bool
}.

Record interaction_snapshot : Type := InteractionSnapshot {
  is_interaction_id : string;
  is_session_id : string;
  is_user_id : string;
  is_messages : list message_view;
  is_created_at : iso8601
}.

(** ** The two stores *)

Inductive mongo_call : Type :=
| FindOne (collection : string)
| InsertOne (collection : string)
| UpdateOne (collection : string)
| DeleteOne (collection : string).

Record mongo : Type := Mongo {
  mongo_up : bool;
  sessions : list session_doc;
  interactions : list interaction_doc;
  mongo_log : list mongo_call
}.

(** A Redis key: its value and, when it has one, the instant it expires. *)
Record entry (A : Type) : Type := Entry {
  e_val : A;
  e_expires : option Z
}.
Arguments Entry {A} e_val e_expires.
Arguments e_val {A} e.
Arguments e_expires {A} e.

Record redis : Type := Redis {
  redis_up : bool;
  r_sessions : gmap string (entry session_snapshot);
  r_interactions : gmap string (entry interaction_snapshot);
  r_rate : gmap string (entry Z)
}.

Inductive role : Type := RoleUser | RoleAssistant.

Record turn : Type := Turn { t_role : role; t_content : string }.

(** [settings]: the configuration values the services read. *)
Record settings_t : Type := Settings {
  JWT_SECRET_KEY : string;
  JWT_ACCESS_TOKEN_EXPIRE_MINUTES : Z;
  JWT_REFRESH_TOKEN_EXPIRE_DAYS : Z;
  REDIS_TTL_SESSION : Z;
  REDIS_TTL_INTERACTION : Z;
  RATE_LIMIT_REQUESTS : Z;
  RATE_LIMIT_PERIOD : Z
}.

(** The defaults of [app/config/settings.py]; the secret has none. *)
Definition default_settings (secret : string) : settings_t :=
  {| JWT_SECRET_KEY := secret;
     JWT_ACCESS_TOKEN_EXPIRE_MINUTES := 60;
     JWT_REFRESH_TOKEN_EXPIRE_DAYS := 7;
     REDIS_TTL_SESSION := 86400;
     REDIS_TTL_INTERACTION := 1800;
     RATE_LIMIT_REQUESTS := 100;
     RATE_LIMIT_PERIOD := 3600 |}.

(** The world a request runs in. [now] is the UTC clock in seconds since
    the epoch and [utc_offset] what the local time zone of the process
    adds to it; [uuid_stream] is the sequence of values [uuid.uuid4()]
    returns, [uuid_draws] how many were drawn; [hf_client] is the
    HuggingFace chat completion: the generated text, or the text of the
    exception it raised. *)
Record world : Type := World {
  now : Z;
  utc_offset : Z;
  settings : settings_t;
  db : mongo;
  cache : redis;
  uuid_stream : nat -> string;
  uuid_draws : nat;
  hf_client : list turn -> string + string
}.

Definition with_db (d : mongo) (w : world) : world :=
  {| now := now w; utc_offset := utc_offset w; settings := settings w;
     db := d; cache := cache w;
     uuid_stream := uuid_stream w; uuid_draws := uuid_draws w;
     hf_client := hf_client w |}.

Definition with_cache (c : redis) (w : world) : world :=
  {| now := now w; utc_offset := utc_offset w; settings := settings w;
     db := db w; cache := c;
     uuid_stream := uuid_stream w; uuid_draws := uuid_draws w;
     hf_client := hf_client w |}.

Definition with_draws (n : nat) (w : world) : world :=
  {| now := now w; utc_offset := utc_offset w; settings := settings w;
     db := db w; cache := cache w;
     uuid_stream := uuid_stream w; uuid_draws := n;
     hf_client := hf_client w |}.

Definition with_sessions (l : list session_doc) (d : mongo) : mongo :=
  {| mongo_up := mongo_up d; sessions := l;
     interactions := interactions d; mongo_log := mongo_log d |}.

Definition with_interactions (l : list interaction_doc) (d : mongo) : mongo :=
  {| mongo_up := mongo_up d; sessions := sessions d;
     interactions := l; mongo_log := mongo_log d |}.

Definition log_call (c : mongo_call) (d : mongo) : mongo :=
  {| mongo_up := mongo_up d; sessions := sessions d;
     interactions := interactions d; mongo_log := mongo_log d ++ [c] |}.

Definition with_r_sessions (m : gmap string (entry session_snapshot))
    (c : redis) : redis :=
  {| redis_up := redis_up c; r_sessions := m;
     r_interactions := r_interactions c; r_rate := r_rate c |}.

Definition with_r_interactions (m : gmap string (entry interaction_snapshot))
    (c : redis) : redis :=
  {| redis_up := redis_up c; r_sessions := r_sessions c;
     r_interactions := m; r_rate := r_rate c |}.

Definition with_r_rate (m : gmap string (entry Z)) (c : redis) : redis :=
  {| redis_up := redis_up c; r_sessions := r_sessions c;
     r_interactions := r_interactions c; r_rate := m |}.

(** ** Coroutines: state and exceptions *)

Definition M (A : Type) : Type := world -> result A * world.

Definition ret {A} (a : A) : M A := fun w => (Ok a, w).

Definition raise {A} (e : exn) : M A := fun w => (Raise e, w).

Definition bind {A B} (m : M A) (k : A -> M B) : M B :=
  fun w =>
    match m w with
    | (Ok a, w') => k a w'
    | (Raise e, w') => (Raise e, w')
    end.

(** [try: m except Exception as e: h e] *)
Definition try_except {A} (m : M A) (h : exn -> M A) : M A :=
  fun w =>
    match m w with
    | (Ok a, w') => (Ok a, w')
    | (Raise e, w') => h e w'
    end.

Declare Scope coro_scope.
Delimit Scope coro_scope with coro.
Notation "x <~ m ;; k" := (bind m (fun x => k))
  (at level 100, m at next level, right associativity) : coro_scope.
Notation "m ;;; k" := (bind m (fun _ => k))
  (at level 100, right associativity) : coro_scope.
Local Open Scope coro_scope.

Definition get_world : M world := fun w => (Ok w, w).

(** [get_current_timestamp()] *)
Definition get_current_timestamp : M Z := fun w => (Ok (now w), w).

Definition get_settings : M settings_t := fun w => (Ok (settings w), w).

(** [generate_uuid()] *)
Definition generate_uuid : M string :=
  fun w => (Ok (uuid_stream w (uuid_draws w)), with_draws (S (uuid_draws w)) w).

Definition generate_session_id : M string :=
  u <~ generate_uuid ;; ret ("session_" +:+ u).

Definition generate_interaction_id : M string :=
  u <~ generate_uuid ;; ret ("interaction_" +:+ u).

Definition generate_message_id : M string :=
  u <~ generate_uuid ;; ret ("message_" +:+ u).

(** [s[n:]] for [0 <= n] *)
Fixpoint drop_chars (n : nat) (s : string) : string :=
  match n, s with
  | O, _ => s
  | S n', String _ s' => drop_chars n' s'
  | S _, EmptyString => EmptyString
  end.

Definition extract_uuid_from_prefixed_id (prefixed_id prefix : string)
    : option string :=
  if String.prefix (prefix +:+ "_") prefixed_id
  then Some (drop_chars (String.length prefix + 1) prefixed_id)
  else None.

(** ** Redis: keys with a time to live *)

Section KeyValue.
Context {A : Type}.
Implicit Types (m : gmap string (entry A)) (k : string) (t ttl : Z).

Definition live t (e : entry A) : bool :=
  match e_expires e with
  | None => true
  | Some x => t <? x
  end.

(** GET *)
Definition kv_get t m k : option A :=
  match m !! k with
  | Some e => if live t e then Some (e_val e) else None
  | None => None
  end.

(** EXISTS *)
Definition kv_exists t m k : bool :=
  match kv_get t m k with Some _ => true | None => false end.

(** SETEX: the key expires [ttl] seconds from now. *)
Definition kv_setex t m k ttl (v : A) : gmap string (entry A) :=
  <[k := Entry v (Some (t + ttl))]> m.

(** EXPIRE: a live key gets a new time to live, its value stays. *)
Definition kv_expire t m k ttl : gmap string (entry A) :=
  match m !! k with
  | Some e => if live t e then <[k := Entry (e_val e) (Some (t + ttl))]> m
              else m
  | None => m
  end.

(** DEL *)
Definition kv_delete m k : gmap string (entry A) := delete k m.

(** TTL: the seconds a live key has left, [-1] for a key that never
    expires, [-2] for a missing one. *)
Definition kv_ttl t m k : Z :=
  match m !! k with
  | Some e =>
      if live t e
      then match e_expires e with Some x => x - t | None => -1 end
      else -2
  | None => -2
  end.
End KeyValue.

(** INCR: a live counter is incremented and keeps its expiry; a missing
    one starts at 1 and never expires. *)
Definition kv_incr (t : Z) (m : gmap string (entry Z)) (k : string)
    : gmap string (entry Z) :=
  match m !! k with
  | Some e => if live t e then <[k := Entry (e_val e + 1) (e_expires e)]> m
              else <[k := Entry 1 None]> m
  | None => <[k := Entry 1 None]> m
  end.

(** One call of the Redis client. *)
Definition redis_call {A} (f : Z -> redis -> result A * redis) : M A :=
  fun w =>
    if redis_up (cache w) then
      match f (now w) (cache w) with
      | (r, c) => (r, with_cache c w)
      end
    else (Raise (RedisError "Error connecting to Redis"), w).

Definition redis_get_session (sid : string) : M (option session_snapshot) :=
  redis_call (fun t c => (Ok (kv_get t (r_sessions c) sid), c)).

Definition redis_setex_session (sid : string) (ttl : Z) (v : session_snapshot)
    : M unit :=
  redis_call (fun t c =>
    if 0 <? ttl
    then (Ok tt, with_r_sessions (kv_setex t (r_sessions c) sid ttl v) c)
    else (Raise (RedisError "invalid expire time in setex"), c)).

Definition redis_delete_session (sid : string) : M unit :=
  redis_call (fun t c => (Ok tt, with_r_sessions (kv_delete (r_sessions c) sid) c)).

Definition redis_exists_session (sid : string) : M bool :=
  redis_call (fun t c => (Ok (kv_exists t (r_sessions c) sid), c)).

Definition redis_expire_session (sid : string) (ttl : Z) : M unit :=
  redis_call (fun t c =>
    (Ok tt, with_r_sessions (kv_expire t (r_sessions c) sid ttl) c)).

Definition redis_get_interaction (iid : string)
    : M (option interaction_snapshot) :=
  redis_call (fun t c => (Ok (kv_get t (r_interactions c) iid), c)).

Definition redis_setex_interaction (iid : string) (ttl : Z)
    (v : interaction_snapshot) : M unit :=
  redis_call (fun t c =>
    if 0 <? ttl
    then (Ok tt, with_r_interactions (kv_setex t (r_interactions c) iid ttl v) c)
    else (Raise (RedisError "invalid expire time in setex"), c)).

Definition redis_delete_interaction (iid : string) : M unit :=
  redis_call (fun t c =>
    (Ok tt, with_r_interactions (kv_delete (r_interactions c) iid) c)).

Definition redis_exists_interaction (iid : string) : M bool :=
  redis_call (fun t c => (Ok (kv_exists t (r_interactions c) iid), c)).

Definition redis_expire_interaction (iid : string) (ttl : Z) : M unit :=
  redis_call (fun t c =>
    (Ok tt, with_r_interactions (kv_expire t (r_interactions c) iid ttl) c)).

Definition redis_get_rate (uid : string) : M (option Z) :=
  redis_call (fun t c => (Ok (kv_get t (r_rate c) uid), c)).

Definition redis_setex_rate (uid : string) (ttl : Z) (v : Z) : M unit :=
  redis_call (fun t c =>
    if 0 <? ttl
    then (Ok tt, with_r_rate (kv_setex t (r_rate c) uid ttl v) c)
    else (Raise (RedisError "invalid expire time in setex"), c)).

Definition redis_incr_rate (uid : string) : M unit :=
  redis_call (fun t c => (Ok tt, with_r_rate (kv_incr t (r_rate c) uid) c)).

Definition redis_ttl_rate (uid : string) : M Z :=
  redis_call (fun t c => (Ok (kv_ttl t (r_rate c) uid), c)).

(** ** MongoDB: collections of documents *)

Section Collections.
Context {A : Type}.

(** The first document the filter selects is replaced. *)
Fixpoint update_first (p : A -> bool) (f : A -> A) (l : list A) : list A :=
  match l with
  | [] => []
  | x :: l' => if p x then f x :: l' else x :: update_first p f l'
  end.

(** The first document the filter selects is removed. *)
Fixpoint remove_first (p : A -> bool) (l : list A) : list A :=
  match l with
  | [] => []
  | x :: l' => if p x then l' else x :: remove_first p l'
  end.
End Collections.

(** One call of the MongoDB driver; the call is logged whether or not the
    server answers. *)
Definition mongo_run {A} (c : mongo_call) (f : mongo -> result A * mongo)
    : M A :=
  fun w =>
    let d := log_call c (db w) in
    if mongo_up d then
      match f d with
      | (r, d') => (r, with_db d' w)
      end
    else (Raise (PyMongoError "ServerSelectionTimeoutError"), with_db d w).

Definition SESSIONS_COLLECTION : string := "sessions".
Definition INTERACTIONS_COLLECTION : string := "interactions".

Definition sessions_find_one (p : session_doc -> bool)
    : M (option session_doc) :=
  mongo_run (FindOne SESSIONS_COLLECTION)
    (fun d => (Ok (List.find p (sessions d)), d)).

(** [insert_one] under the unique index on [session_id]. *)
Definition sessions_insert_one (doc : session_doc) : M unit :=
  mongo_run (InsertOne SESSIONS_COLLECTION) (fun d =>
    match List.find (fun x => String.eqb (sd_session_id x) (sd_session_id doc))
                    (sessions d) with
    | Some _ => (Raise (PyMongoError "E11000 duplicate key error"), d)
    | None => (Ok tt, with_sessions (sessions d ++ [doc]) d)
    end).

Definition sessions_update_one (p : session_doc -> bool)
    (f : session_doc -> session_doc) : M unit :=
  mongo_run (UpdateOne SESSIONS_COLLECTION)
    (fun d => (Ok tt, with_sessions (update_first p f (sessions d)) d)).

Definition sessions_delete_one (p : session_doc -> bool) : M unit :=
  mongo_run (DeleteOne SESSIONS_COLLECTION)
    (fun d => (Ok tt, with_sessions (remove_first p (sessions d)) d)).

Definition interactions_find_one (p : interaction_doc -> bool)
    : M (option interaction_doc) :=
  mongo_run (FindOne INTERACTIONS_COLLECTION)
    (fun d => (Ok (List.find p (interactions d)), d)).

(** [insert_one] under the unique index on [interaction_id]. *)
Definition interactions_insert_one (doc : interaction_doc) : M unit :=
  mongo_run (InsertOne INTERACTIONS_COLLECTION) (fun d =>
    match List.find
            (fun x => String.eqb (id_interaction_id x) (id_interaction_id doc))
            (interactions d) with
    | Some _ => (Raise (PyMongoError "E11000 duplicate key error"), d)
    | None => (Ok tt, with_interactions (interactions d ++ [doc]) d)
    end).

Definition interactions_update_one (p : interaction_doc -> bool)
    (f : interaction_doc -> interaction_doc) : M unit :=
  mongo_run (UpdateOne INTERACTIONS_COLLECTION)
    (fun d => (Ok tt, with_interactions (update_first p f (interactions d)) d)).

Definition interactions_delete_one (p : interaction_doc -> bool) : M unit :=
  mongo_run (DeleteOne INTERACTIONS_COLLECTION)
    (fun d => (Ok tt, with_interactions (remove_first p (interactions d)) d)).

(** ** [app/utils/helpers.py] *)

(** The ASCII characters for which [str.isspace] holds. *)
Definition is_space (c : ascii) : bool :=
  let n := nat_of_ascii c in
  ((9 <=? n) && (n <=? 13) || (28 <=? n) && (n <=? 32))%nat.

Fixpoint lstrip (s : string) : string :=
  match s with
  | EmptyString => EmptyString
  | String c s' => if is_space c then lstrip s' else s
  end.

Fixpoint rstrip (s : string) : string :=
  match s with
  | EmptyString => EmptyString
  | String c s' =>
      match rstrip s' with
      | EmptyString => if is_space c then EmptyString else String c EmptyString
      | r => String c r
      end
  end.

(** [message.strip()] *)
Definition strip (s : string) : string := rstrip (lstrip s).

Definition sanitize_message (message : string) (max_length : Z) : string :=
  let message := strip message in
  if max_length <? Z.of_nat (String.length message)
  then substring 0 (Z.to_nat max_length) message
  else message.

(** Python's [l[start:]] for an integer [start]. *)
Definition py_slice_from {A} (start : Z) (l : list A) : list A :=
  let n := Z.of_nat (length l) in
  let s := if start <? 0 then Z.max 0 (n + start) else Z.min start n in
  drop (Z.to_nat s) l.

(** Truth value of an [Optional[str]]: [None] and [""] are false. *)
Definition nonempty (o : option string) : option string :=
  match o with
  | Some s => if String.eqb s "" then None else Some s
  | None => None
  end.

(** ** [app/services/cache_service.py] *)

Record rate_limit_info : Type := RateLimitInfo {
  requests_made : Z;
  requests_limit : Z;
  reset_in_seconds : Z
}.

Module CacheService.

Definition cache_session (session_id : string)
    (session_data : session_snapshot) : M bool :=
  try_except
    (s <~ get_settings ;;
     redis_setex_session session_id (REDIS_TTL_SESSION s) session_data ;;;
     ret true)
    (fun _ => ret false).

Definition get_session (session_id : string)
    : M (option session_snapshot) :=
  try_except (redis_get_session session_id) (fun _ => ret None).

Definition delete_session (session_id : string) : M bool :=
  try_except (redis_delete_session session_id ;;; ret true)
             (fun _ => ret false).

Definition update_session_activity (session_id : string) : M bool :=
  try_except
    (s <~ get_settings ;;
     exists_ <~ redis_exists_session session_id ;;
     if exists_ : bool
     then redis_expire_session session_id (REDIS_TTL_SESSION s) ;;; ret true
     else ret false)
    (fun _ => ret false).

Definition cache_interaction (interaction_id : string)
    (interaction_data : interaction_snapshot) : M bool :=
  try_except
    (s <~ get_settings ;;
     redis_setex_interaction interaction_id (REDIS_TTL_INTERACTION s)
       interaction_data ;;;
     ret true)
    (fun _ => ret false).

Definition get_interaction (interaction_id : string)
    : M (option interaction_snapshot) :=
  try_except
    (s <~ get_settings ;;
     value <~ redis_get_interaction interaction_id ;;
     match value with
     | Some data =>
         redis_expire_interaction interaction_id (REDIS_TTL_INTERACTION s) ;;;
         ret (Some data)
     | None => ret None
     end)
    (fun _ => ret None).

Definition delete_interaction (interaction_id : string) : M bool :=
  try_except (redis_delete_interaction interaction_id ;;; ret true)
             (fun _ => ret false).

Definition check_interaction_expired (interaction_id : string) : M bool :=
  try_except
    (exists_ <~ redis_exists_interaction interaction_id ;;
     ret (negb exists_))
    (fun _ => ret true).

(** [True] when the request is within the limit. *)
Definition check_rate_limit (user_id : string) : M bool :=
  try_except
    (s <~ get_settings ;;
     current <~ redis_get_rate user_id ;;
     match current with
     | None =>
         redis_setex_rate user_id (RATE_LIMIT_PERIOD s) 1 ;;;
         ret true
     | Some current_count =>
         if RATE_LIMIT_REQUESTS s <=? current_count
         then ret false
         else redis_incr_rate user_id ;;; ret true
     end)
    (fun _ => ret true).

Definition get_rate_limit_info (user_id : string) : M rate_limit_info :=
  try_except
    (s <~ get_settings ;;
     current <~ redis_get_rate user_id ;;
     ttl <~ redis_ttl_rate user_id ;;
     ret {| requests_made := match current with Some n => n | None => 0 end;
            requests_limit := RATE_LIMIT_REQUESTS s;
            reset_in_seconds := if 0 <? ttl then ttl else 0 |})
    (fun _ =>
       s <~ get_settings ;;
       ret {| requests_made := 0;
              requests_limit := RATE_LIMIT_REQUESTS s;
              reset_in_seconds := 0 |}).

End CacheService.

(** ** [app/services/ai_service.py] *)

(** A prior message handed to the formatter: a cached dictionary or a
    stored sub-document; the formatter reads two keys of it. *)
Inductive history_msg : Type :=
| FromCache (m : message_view)
| FromStore (m : message_doc).

Definition get_user_message (m : history_msg) : string :=
  match m with
  | FromCache v => mv_user_message v
  | FromStore d => md_user_message d
  end.

Definition get_ai_response (m : history_msg) : string :=
  match m with
  | FromCache v => mv_ai_response v
  | FromStore d => md_ai_response d
  end.

Module AIService.

Definition generate_response (messages : list turn) : M string :=
  fun w =>
    match hf_client w messages with
    | inl ai_response => (Ok ai_response, w)
    | inr e =>
        (Raise (PlainException ("Failed to generate AI response: " +:+ e)), w)
    end.

Definition format_conversation_history (messages_history : list history_msg)
    (current_message : string) : list turn :=
  (fold_left
     (fun (formatted : list turn) msg =>
        formatted ++ [Turn RoleUser (get_user_message msg);
                      Turn RoleAssistant (get_ai_response msg)])
     messages_history []
   ++ [Turn RoleUser current_message])%list.

End AIService.

(** ** [app/models/db_models.py] *)

Definition session_document (session_id user_id : string) : M session_doc :=
  t <~ get_current_timestamp ;;
  ret {| sd_session_id := session_id; sd_user_id := user_id;
         sd_interaction_ids := []; sd_created_at := t; sd_last_active := t;
         sd_is_active := true |}.

Definition interaction_document (interaction_id session_id user_id : string)
    : M interaction_doc :=
  t <~ get_current_timestamp ;;
  ret {| id_interaction_id := interaction_id; id_session_id := session_id;
         id_user_id := user_id; id_messages := []; id_created_at := t;
         id_updated_at := t; id_last_message_at := t; id_is_active := true |}.

Definition message_pair (message_id user_message ai_response : string)
    : M message_doc :=
  t <~ get_current_timestamp ;;
  ret {| md_message_id := message_id; md_user_message := user_message;
         md_ai_response := ai_response; md_timestamp := t;
         md_metadata := [] |}.

(** ** [app/services/chat_service.py] *)

Record created_session : Type := CreatedSession {
  cs_session_id : string;
  cs_user_id : string;
  cs_created_at : iso8601
}.

Record created_interaction : Type := CreatedInteraction {
  ci_interaction_id : string;
  ci_session_id : string;
  ci_created_at : iso8601;
  ci_messages_count : Z
}.

Record sent_message : Type := SentMessage {
  sm_session_id : string;
  sm_interaction_id : string;
  sm_message_id : string;
  sm_user_message : string;
  sm_ai_response : string;
  sm_timestamp : iso8601
}.

Record chat_history : Type := ChatHistory {
  ch_interaction_id : string;
  ch_session_id : string;
  ch_messages : list message_view;
  ch_total_messages : Z;
  ch_created_at : iso8601;
  ch_last_updated : iso8601
}.

Module ChatService.

Definition create_session (user_id : string) : M created_session :=
  try_except
    (session_id <~ generate_session_id ;;
     session_doc <~ session_document session_id user_id ;;
     sessions_insert_one session_doc ;;;
     CacheService.cache_session session_id
       {| ss_session_id := session_id; ss_user_id := user_id;
          ss_interaction_ids := [];
          ss_created_at := format_timestamp (sd_created_at session_doc);
          ss_last_active := format_timestamp (sd_last_active session_doc) |} ;;;
     ret {| cs_session_id := session_id; cs_user_id := user_id;
            cs_created_at := format_timestamp (sd_created_at session_doc) |})
    (fun e => raise e).

(** The part of [get_session] below the comment "Fallback to database". *)
Definition get_session_fallback (session_id user_id : string)
    : M (option session_snapshot) :=
  session <~ sessions_find_one
    (fun d => String.eqb (sd_session_id d) session_id
              && String.eqb (sd_user_id d) user_id) ;;
  match session with
  | None => ret None
  | Some session =>
      t <~ get_current_timestamp ;;
      sessions_update_one
        (fun d => String.eqb (sd_session_id d) session_id)
        (fun d => {| sd_session_id := sd_session_id d;
                     sd_user_id := sd_user_id d;
                     sd_interaction_ids := sd_interaction_ids d;
                     sd_created_at := sd_created_at d;
                     sd_last_active := t;
                     sd_is_active := sd_is_active d |}) ;;;
      t' <~ get_current_timestamp ;;
      let session_data :=
        {| ss_session_id := sd_session_id session;
           ss_user_id := sd_user_id session;
           ss_interaction_ids := sd_interaction_ids session;
           ss_created_at := format_timestamp (sd_created_at session);
           ss_last_active := format_timestamp t' |} in
      CacheService.cache_session session_id session_data ;;;
      ret (Some session_data)
  end.

(** [cached and cached.get("user_id") == user_id] *)
Definition owned_session (cached : option session_snapshot)
    (user_id : string) : bool :=
  match cached with
  | Some c => String.eqb (ss_user_id c) user_id
  | None => false
  end.

Definition get_session (session_id user_id : string)
    : M (option session_snapshot) :=
  try_except
    (cached <~ CacheService.get_session session_id ;;
     if owned_session cached user_id
     then CacheService.update_session_activity session_id ;;;
          ret cached
     else get_session_fallback session_id user_id)
    (fun _ => ret None).

Definition create_interaction (session_id user_id : string)
    : M created_interaction :=
  try_except
    (interaction_id <~ generate_interaction_id ;;
     interaction_doc <~ interaction_document interaction_id session_id user_id ;;
     interactions_insert_one interaction_doc ;;;
     t <~ get_current_timestamp ;;
     sessions_update_one
       (fun d => String.eqb (sd_session_id d) session_id)
       (fun d => {| sd_session_id := sd_session_id d;
                    sd_user_id := sd_user_id d;
                    sd_interaction_ids :=
                      sd_interaction_ids d ++ [interaction_id];
                    sd_created_at := sd_created_at d;
                    sd_last_active := t;
                    sd_is_active := sd_is_active d |}) ;;;
     CacheService.cache_interaction interaction_id
       {| is_interaction_id := interaction_id;
          is_session_id := session_id;
          is_user_id := user_id;
          is_messages := [];
          is_created_at := format_timestamp (id_created_at interaction_doc) |} ;;;
     CacheService.delete_session session_id ;;;
     ret {| ci_interaction_id := interaction_id;
            ci_session_id := session_id;
            ci_created_at := format_timestamp (id_created_at interaction_doc);
            ci_messages_count := 0 |})
    (fun e => raise e).

Definition _get_interaction_messages (interaction_id : string)
    : M (list history_msg) :=
  try_except
    (cached <~ CacheService.get_interaction interaction_id ;;
     match cached with
     | Some c => ret (map FromCache (is_messages c))
     | None =>
         interaction <~ interactions_find_one
           (fun d => String.eqb (id_interaction_id d) interaction_id) ;;
         match interaction with
         | None => ret []
         | Some i => ret (map FromStore (id_messages i))
         end
     end)
    (fun _ => ret []).

(** [send_message], "Create session if not provided": the session the
    message goes to. *)
Definition resolve_session (user_id : string) (session_id : option string)
    : M string :=
  match nonempty session_id with
  | None =>
      session <~ create_session user_id ;;
      ret (cs_session_id session)
  | Some sid =>
      session <~ get_session sid user_id ;;
      match session with
      | None => raise (ValueError "Invalid session_id")
      | Some _ => ret sid
      end
  end.

(** [send_message], "Check if interaction expired". *)
Definition reject_expired (interaction_id : option string) : M unit :=
  match nonempty interaction_id with
  | Some iid =>
      is_expired <~ CacheService.check_interaction_expired iid ;;
      if is_expired : bool
      then raise (ValueError
                    "Interaction expired. Please create a new interaction.")
      else ret tt
  | None => ret tt
  end.

(** [send_message], "Create interaction if not provided". *)
Definition resolve_interaction (session_id user_id : string)
    (interaction_id : option string) : M string :=
  match nonempty interaction_id with
  | None =>
      interaction <~ create_interaction session_id user_id ;;
      ret (ci_interaction_id interaction)
  | Some iid => ret iid
  end.

(** [send_message] from "Get conversation history" to its [return]. *)
Definition exchange (session_id interaction_id message : string)
    : M sent_message :=
  history <~ _get_interaction_messages interaction_id ;;
  let formatted_messages :=
    AIService.format_conversation_history history message in
  ai_response <~ AIService.generate_response formatted_messages ;;
  message_id <~ generate_message_id ;;
  msg_pair <~ message_pair message_id message ai_response ;;
  t <~ get_current_timestamp ;;
  interactions_update_one
    (fun d => String.eqb (id_interaction_id d) interaction_id)
    (fun d => {| id_interaction_id := id_interaction_id d;
                 id_session_id := id_session_id d;
                 id_user_id := id_user_id d;
                 id_messages := id_messages d ++ [msg_pair];
                 id_created_at := id_created_at d;
                 id_updated_at := t;
                 id_last_message_at := t;
                 id_is_active := id_is_active d |}) ;;;
  cached_interaction <~ CacheService.get_interaction interaction_id ;;
  match cached_interaction with
  | Some c =>
      CacheService.cache_interaction interaction_id
        {| is_interaction_id := is_interaction_id c;
           is_session_id := is_session_id c;
           is_user_id := is_user_id c;
           is_messages :=
             is_messages c ++
             [{| mv_message_id := message_id;
                 mv_user_message := message;
                 mv_ai_response := ai_response;
                 mv_timestamp := format_timestamp (md_timestamp msg_pair);
                 mv_metadata := None |}];
           is_created_at := is_created_at c |} ;;;
      ret tt
  | None => ret tt
  end ;;;
  ret {| sm_session_id := session_id;
         sm_interaction_id := interaction_id;
         sm_message_id := message_id;
         sm_user_message := message;
         sm_ai_response := ai_response;
         sm_timestamp := format_timestamp (md_timestamp msg_pair) |}.

Definition send_message (user_id message : string)
    (session_id interaction_id : option string) : M sent_message :=
  try_except
    (let message := sanitize_message message 10000 in
     session_id <~ resolve_session user_id session_id ;;
     reject_expired interaction_id ;;;
     interaction_id <~ resolve_interaction session_id user_id interaction_id ;;
     exchange session_id interaction_id message)
    (fun e =>
       if is_ValueError e then raise e
       else raise (PlainException ("Failed to send message: " +:+ exn_str e))).

(** [cached and cached.get("user_id") == user_id] *)
Definition owned_interaction (cached : option interaction_snapshot)
    (user_id : string) : option interaction_snapshot :=
  match cached with
  | Some c => if String.eqb (is_user_id c) user_id then Some c else None
  | None => None
  end.

Definition get_chat_history (user_id interaction_id : string) (limit : Z)
    : M chat_history :=
  try_except
    (cached <~ CacheService.get_interaction interaction_id ;;
     match owned_interaction cached user_id with
     | Some c =>
         let messages := py_slice_from (- limit) (is_messages c) in
         t <~ get_current_timestamp ;;
         ret {| ch_interaction_id := interaction_id;
                ch_session_id := is_session_id c;
                ch_messages := messages;
                ch_total_messages := Z.of_nat (length (is_messages c));
                ch_created_at := is_created_at c;
                ch_last_updated := format_timestamp t |}
     | None =>
         interaction <~ interactions_find_one
           (fun d => String.eqb (id_interaction_id d) interaction_id
                     && String.eqb (id_user_id d) user_id) ;;
         match interaction with
         | None => raise (ValueError "Interaction not found")
         | Some i =>
             let messages := py_slice_from (- limit) (id_messages i) in
             let formatted_messages :=
               map (fun msg =>
                      {| mv_message_id := md_message_id msg;
                         mv_user_message := md_user_message msg;
                         mv_ai_response := md_ai_response msg;
                         mv_timestamp := format_timestamp (md_timestamp msg);
                         mv_metadata := Some (md_metadata msg) |})
                   messages in
             ret {| ch_interaction_id := interaction_id;
                    ch_session_id := id_session_id i;
                    ch_messages := formatted_messages;
                    ch_total_messages := Z.of_nat (length (id_messages i));
                    ch_created_at := format_timestamp (id_created_at i);
                    ch_last_updated := format_timestamp (id_updated_at i) |}
         end
     end)
    (fun e => raise e).

Definition delete_interaction (user_id interaction_id : string) : M bool :=
  try_except
    (interaction <~ interactions_find_one
       (fun d => String.eqb (id_interaction_id d) interaction_id
                 && String.eqb (id_user_id d) user_id) ;;
     match interaction with
     | None => raise (ValueError "Interaction not found")
     | Some i =>
         interactions_delete_one
           (fun d => String.eqb (id_interaction_id d) interaction_id) ;;;
         CacheService.delete_interaction interaction_id ;;;
         sessions_update_one
           (fun d => String.eqb (sd_session_id d) (id_session_id i))
           (fun d => {| sd_session_id := sd_session_id d;
                        sd_user_id := sd_user_id d;
                        sd_interaction_ids :=
                          List.filter
                            (fun x => negb (String.eqb x interaction_id))
                            (sd_interaction_ids d);
                        sd_created_at := sd_created_at d;
                        sd_last_active := sd_last_active d;
                        sd_is_active := sd_is_active d |}) ;;;
         ret true
     end)
    (fun e => raise e).

End ChatService.

(** ** [app/services/auth_service.py] *)

Module AuthService.

(** The claims of a token. *)
Record payload : Type := Payload {
  p_user_id : string;
  p_email : string;
  p_exp : Z;
  p_type : string
}.

(** The HS256 signature of [claims] under [key], as a symbolic term: a
    signature verifies under a key exactly when it was made under that
    key for the same claims. *)
Inductive signature : Type := Hmac (key : string) (claims : payload).

Inductive token : Type :=
| Jws (claims : payload) (sig : signature)
| Malformed (raw : string).

#[global] Instance payload_eq_dec : EqDecision payload.
Proof. solve_decision. Defined.

#[global] Instance signature_eq_dec : EqDecision signature.
Proof. solve_decision. Defined.

(** [jose.jwt.encode]: a [datetime] under ["exp"] is stored as the
    seconds since the epoch it denotes in UTC. *)
Definition jwt_encode (claims : payload) (key : string) : token :=
  Jws claims (Hmac key claims).

(** [jose.jwt.decode]: the signature is checked, then ["exp"] against the
    UTC clock; every failure is a [JWTError]. *)
Definition jwt_decode (w : world) (t : token) (key : string)
    : result payload :=
  match t with
  | Malformed _ => Raise (JWTError "Error decoding token headers.")
  | Jws claims sig =>
      if bool_decide (sig = Hmac key claims) then
        if p_exp claims <? now w
        then Raise (JWTError "Signature has expired.")
        else Ok claims
      else Raise (JWTError "Signature verification failed.")
  end.

(** [datetime.utcnow()] *)
Definition utcnow (w : world) : Z := now w.

(** [datetime.fromtimestamp(ts)]: the naive local time of the instant,
    for an instant within the range of [datetime]; outside that range the
    source raises, which is not modelled: what is proved about tokens is
    to be read for expiry instants within that range. *)
Definition fromtimestamp (w : world) (ts : Z) : Z := ts + utc_offset w.

Definition create_access_token (w : world) (user_id email : string)
    : token :=
  let expire :=
    utcnow w + 60 * JWT_ACCESS_TOKEN_EXPIRE_MINUTES (settings w) in
  let payload :=
    {| p_user_id := user_id; p_email := email; p_exp := expire;
       p_type := "access" |} in
  jwt_encode payload (JWT_SECRET_KEY (settings w)).

Definition create_refresh_token (w : world) (user_id email : string)
    : token :=
  let expire :=
    utcnow w + 86400 * JWT_REFRESH_TOKEN_EXPIRE_DAYS (settings w) in
  let payload :=
    {| p_user_id := user_id; p_email := email; p_exp := expire;
       p_type := "refresh" |} in
  jwt_encode payload (JWT_SECRET_KEY (settings w)).

(** Only a [JWTError] is caught. *)
Definition decode_token (w : world) (t : token) : result (option payload) :=
  match jwt_decode w t (JWT_SECRET_KEY (settings w)) with
  | Ok payload => Ok (Some payload)
  | Raise (JWTError _) => Ok None
  | Raise e => Raise e
  end.

(** [exp and datetime.utcnow() > datetime.fromtimestamp(exp)] *)
Definition past_expiry (w : world) (exp : Z) : bool :=
  negb (exp =? 0) && (fromtimestamp w exp <? utcnow w).

Definition verify_token (kind : string) (w : world) (t : token)
    : result (option payload) :=
  match decode_token w t with
  | Raise e => Raise e
  | Ok None => Ok None
  | Ok (Some payload) =>
      if negb (String.eqb (p_type payload) kind) then Ok None
      else if past_expiry w (p_exp payload) then Ok None
      else Ok (Some payload)
  end.

Definition verify_access_token : world -> token -> result (option payload) :=
  verify_token "access".

Definition verify_refresh_token : world -> token -> result (option payload) :=
  verify_token "refresh".

End AuthService.

(** ** [app/middleware/auth.py] *)

Record current_user : Type := CurrentUser {
  cu_user_id : string;
  cu_email : string
}.

(** What a dependency yields: the user, the [HTTPException] it raises, or
    an exception that escapes it. *)
Inductive authenticated : Type :=
| User (u : current_user)
| Denied (status_code : Z) (detail : string)
| Escaped (e : exn).

Module Middleware.

Definition get_current_user (w : world) (t : AuthService.token)
    : authenticated :=
  match AuthService.verify_access_token w t with
  | Raise e => Escaped e
  | Ok None => Denied 401 "Invalid or expired access token"
  | Ok (Some payload) =>
      User {| cu_user_id := AuthService.p_user_id payload;
              cu_email := AuthService.p_email payload |}
  end.

Definition verify_refresh_token (w : world) (t : AuthService.token)
    : authenticated :=
  match AuthService.verify_refresh_token w t with
  | Raise e => Escaped e
  | Ok None => Denied 401 "Invalid or expired refresh token"
  | Ok (Some payload) =>
      User {| cu_user_id := AuthService.p_user_id payload;
              cu_email := AuthService.p_email payload |}
  end.

End Middleware.

(** ** [app/routes/chat.py] and [app/routes/session.py] *)

(** What a handler answers: a success body, an [HTTPException], or the
    error body of [build_error_response]. *)
Inductive response (A : Type) : Type :=
| Success (data : A) (message : string)
| HTTPException (status_code : Z) (detail : string)
| ErrorBody (code message details : string).
Arguments Success {A} data message.
Arguments HTTPException {A} status_code detail.
Arguments ErrorBody {A} code message details.

Definition Route (A : Type) : Type := world -> response A * world.

(** [needle in hay] *)
Fixpoint contains (needle hay : string) : bool :=
  String.prefix needle hay
  || match hay with
     | EmptyString => false
     | String _ hay' => contains needle hay'
     end.

Module Routes.

(** POST /chat/message *)
Definition send_message (user_id message : string)
    (session_id interaction_id : option string) : Route sent_message :=
  fun w =>
    match CacheService.check_rate_limit user_id w with
    | (Raise _, w1) => (HTTPException 500 "Failed to send message", w1)
    | (Ok false, w1) =>
        match CacheService.get_rate_limit_info user_id w1 with
        | (Ok rate_info, w2) =>
            (HTTPException 429
               ("Rate limit exceeded. Try again in "
                +:+ pretty (reset_in_seconds rate_info) +:+ " seconds"), w2)
        | (Raise _, w2) => (HTTPException 500 "Failed to send message", w2)
        end
    | (Ok true, w1) =>
        match ChatService.send_message user_id message session_id
                interaction_id w1 with
        | (Ok result, w2) => (Success result "Message sent successfully", w2)
        | (Raise (ValueError ve), w2) => (HTTPException 400 ve, w2)
        | (Raise e, w2) =>
            let error_msg := exn_str e in
            if contains "AI_SERVICE_ERROR" error_msg
               || contains "Failed to generate AI response" error_msg
            then (ErrorBody "AI_SERVICE_ERROR" "Failed to get AI response"
                            error_msg, w2)
            else (HTTPException 500 "Failed to send message", w2)
        end
    end.

(** GET /chat/history/{interaction_id} *)
Definition get_chat_history (user_id interaction_id : string) (limit : Z)
    : Route chat_history :=
  fun w =>
    match ChatService.get_chat_history user_id interaction_id
            (Z.min limit 500) w with
    | (Ok history, w1) =>
        (Success history "Chat history retrieved successfully", w1)
    | (Raise (ValueError ve), w1) => (HTTPException 404 ve, w1)
    | (Raise _, w1) =>
        (HTTPException 500 "Failed to retrieve chat history", w1)
    end.

(** DELETE /chat/interaction/{interaction_id} *)
Definition delete_interaction (user_id interaction_id : string)
    : Route string :=
  fun w =>
    match ChatService.delete_interaction user_id interaction_id w with
    | (Ok _, w1) =>
        (Success interaction_id "Interaction deleted successfully", w1)
    | (Raise (ValueError ve), w1) => (HTTPException 404 ve, w1)
    | (Raise _, w1) => (HTTPException 500 "Failed to delete interaction", w1)
    end.

(** GET /session/{session_id} *)
Definition get_session_info (user_id session_id : string)
    : Route session_snapshot :=
  fun w =>
    match ChatService.get_session session_id user_id w with
    | (Ok (Some session), w1) =>
        (Success session "Session info retrieved successfully", w1)
    | (Ok None, w1) =>
        (HTTPException 404 "Session not found or does not belong to user", w1)
    | (Raise _, w1) =>
        (HTTPException 500 "Failed to retrieve session info", w1)
    end.

(** The loop of [delete_session]: every interaction of the session is
    deleted, a failure is logged and skipped. *)
Fixpoint delete_all (user_id : string) (interaction_ids : list string)
    : M unit :=
  match interaction_ids with
  | [] => ret tt
  | interaction_id :: rest =>
      try_except
        (ChatService.delete_interaction user_id interaction_id ;;; ret tt)
        (fun _ => ret tt) ;;;
      delete_all user_id rest
  end.

(** DELETE /session/{session_id} *)
Definition delete_session (user_id session_id : string) : Route string :=
  fun w =>
    match ChatService.get_session session_id user_id w with
    | (Raise _, w1) => (HTTPException 500 "Failed to delete session", w1)
    | (Ok None, w1) =>
        (HTTPException 404 "Session not found or does not belong to user", w1)
    | (Ok (Some session), w1) =>
        match (delete_all user_id (ss_interaction_ids session) ;;;
               sessions_delete_one
                 (fun d => String.eqb (sd_session_id d) session_id) ;;;
               CacheService.delete_session session_id) w1 with
        | (Ok _, w2) => (Success session_id "Session deleted successfully", w2)
        | (Raise _, w2) => (HTTPException 500 "Failed to delete session", w2)
        end
    end.

(** POST /chat/interaction/new *)
Definition create_new_interaction (user_id session_id : string)
    : Route created_interaction :=
  fun w =>
    match ChatService.get_session session_id user_id w with
    | (Raise _, w1) => (HTTPException 500 "Failed to create interaction", w1)
    | (Ok None, w1) =>
        (HTTPException 404 "Session not found or does not belong to user", w1)
    | (Ok (Some _), w1) =>
        match ChatService.create_interaction session_id user_id w1 with
        | (Ok result, w2) =>
            (Success result "New interaction created successfully", w2)
        | (Raise _, w2) =>
            (HTTPException 500 "Failed to create interaction", w2)
        end
    end.

(** GET /chat/rate-limit *)
Definition get_rate_limit_status (user_id : string) : Route rate_limit_info :=
  fun w =>
    match CacheService.get_rate_limit_info user_id w with
    | (Ok rate_info, w1) =>
        (Success rate_info "Rate limit info retrieved successfully", w1)
    | (Raise _, w1) =>
        (HTTPException 500 "Failed to retrieve rate limit info", w1)
    end.

(** POST /session/create *)
Definition create_session (user_id : string) : Route created_session :=
  fun w =>
    match ChatService.create_session user_id w with
    | (Ok session, w1) => (Success session "Session created successfully", w1)
    | (Raise _, w1) => (HTTPException 500 "Failed to create session", w1)
    end.

End Routes.

(** * Notions used in the statements *)

(** ** Frames: what a coroutine leaves alone

    [respects R m]: whatever [m] answers, the world it leaves is related
    by [R] to the world it started in. For a preorder [R] the property
    goes through sequencing and exception handling. *)

Definition respects (R : relation world) {A} (m : M A) : Prop :=
  forall w, R w (snd (m w)).

(** [stable I m]: [m] keeps the invariant [I]. *)
Definition stable (I : world -> Prop) {A} (m : M A) : Prop :=
  forall w, I w -> I (snd (m w)).

(** A relation that only looks at one observation of the world. *)
Definition keeps {B} (obs : world -> B) : relation world :=
  fun w w' => obs w' = obs w.

(** ** Scenarios

    Concrete worlds on which the behaviour of the services is computed.
    The n-th UUID drawn is the decimal numeral of n; the generator
    answers by repeating the conversation it was handed. *)

Definition echo_client (turns : list turn) : string + string :=
  inl (String.concat " / " (map t_content turns)).


Definition boot : world :=
  {| now := 1000;
     utc_offset := 0;
     settings := default_settings "secret";
     db := {| mongo_up := true; sessions := []; interactions := [];
              mongo_log := [] |};
     cache := {| redis_up := true; r_sessions := ∅; r_interactions := ∅;
                 r_rate := ∅ |};
     uuid_stream := fun n => pretty n;
     uuid_draws := 0;
     hf_client := echo_client |}.

(** The clock moves on by [d] seconds. *)
Definition tick (d : Z) (w : world) : world :=
  {| now := now w + d; utc_offset := utc_offset w; settings := settings w;
     db := db w; cache := cache w; uuid_stream := uuid_stream w;
     uuid_draws := uuid_draws w; hf_client := hf_client w |}.

(** Redis becomes reachable or unreachable. *)
Definition set_redis_up (b : bool) (w : world) : world :=
  with_cache {| redis_up := b; r_sessions := r_sessions (cache w);
                r_interactions := r_interactions (cache w);
                r_rate := r_rate (cache w) |} w.

(** MongoDB becomes reachable or unreachable. *)
Definition set_mongo_up (b : bool) (w : world) : world :=
  with_db {| mongo_up := b; sessions := sessions (db w);
             interactions := interactions (db w);
             mongo_log := mongo_log (db w) |} w.

(** The generator is replaced. *)
Definition set_hf_client (f : list turn -> string + string) (w : world)
    : world :=
  {| now := now w; utc_offset := utc_offset w; settings := settings w;
     db := db w; cache := cache w; uuid_stream := uuid_stream w;
     uuid_draws := uuid_draws w; hf_client := f |}.

(** The process runs in another time zone. *)
Definition set_utc_offset (off : Z) (w : world) : world :=
  {| now := now w; utc_offset := off; settings := settings w;
     db := db w; cache := cache w; uuid_stream := uuid_stream w;
     uuid_draws := uuid_draws w; hf_client := hf_client w |}.

(** Alice has sent her first message: session ["session_0"], interaction
    ["interaction_1"] with one stored pair, both cached. *)
Definition alice_chatting : world :=
  snd (ChatService.send_message "alice" "hello" None None boot).

(** Bob has opened a session of his own, ["session_3"]. *)
Definition alice_and_bob : world :=
  snd (ChatService.create_session "bob" alice_chatting).

Definition EXPIRED : exn :=
  ValueError "Interaction expired. Please create a new interaction.".

(** Alice has sent two more messages in the same interaction. *)
Definition alice_three_messages : world :=
  snd (ChatService.send_message "alice" "third" (Some "session_0")
         (Some "interaction_1")
         (snd (ChatService.send_message "alice" "second" (Some "session_0")
                 (Some "interaction_1") alice_chatting))).

(** A process whose local time zone is five hours behind UTC. *)
Definition boot_utc_minus_5 : world := set_utc_offset (-18000) boot.

(** ** Notions for the message flow *)

(** The steps of [send_message] that come before the generator is asked:
    session, expiry check, interaction. *)
Definition send_message_prelude (user_id : string)
    (session_id interaction_id : option string) : M (string * string) :=
  sid <~ ChatService.resolve_session user_id session_id ;;
  ChatService.reject_expired interaction_id ;;;
  iid <~ ChatService.resolve_interaction sid user_id interaction_id ;;
  ret (sid, iid).

(** How [send_message] re-raises what its body raised. *)
Definition send_message_reraise (e : exn) : exn :=
  if is_ValueError e then e
  else PlainException ("Failed to send message: " +:+ exn_str e).

(** No stored message sequence was touched: the interactions collection
    is the old one, possibly followed by new interactions that hold no
    message. *)
Definition stored_messages_kept : relation world :=
  fun w w' =>
    exists fresh,
      interactions (db w') = interactions (db w) ++ fresh
      /\ Forall (fun d => id_messages d = []) fresh.

(** No cached message sequence was touched: every cached interaction
    either holds the snapshot it held before (its time to live may have
    been refreshed) or is a new snapshot without messages, and none was
    removed. *)
Definition snapshots_kept (m m' : gmap string (entry interaction_snapshot))
    : Prop :=
  forall k,
    match m' !! k with
    | Some e' =>
        is_messages (e_val e') = []
        \/ exists e, m !! k = Some e /\ e_val e' = e_val e
    | None => m !! k = None
    end.

Definition cached_messages_kept : relation world :=
  fun w w' =>
    snapshots_kept (r_interactions (cache w)) (r_interactions (cache w')).


(** ** Notions for the rate limiter *)

(** The user asks again and again: each request comes the given number
    of seconds after the one before. *)
Fixpoint requests (user_id : string) (delays : list Z) (w : world)
    : list (result bool) * world :=
  match delays with
  | [] => ([], w)
  | d :: delays' =>
      match CacheService.check_rate_limit user_id (tick d w) with
      | (r, w1) =>
          match requests user_id delays' w1 with
          | (rs, w2) => (r :: rs, w2)
          end
      end
  end.

Definition total (delays : list Z) : Z := foldr Z.add 0 delays.

(** The counter of a user as Redis holds it. *)
Definition rate_counter (w : world) (user_id : string) : option (entry Z) :=
  r_rate (cache w) !! user_id.

(** A deployment that allows two requests per hour. *)
Definition boot_limit_2 : world :=
  {| now := 1000;
     utc_offset := 0;
     settings :=
       {| JWT_SECRET_KEY := "secret";
          JWT_ACCESS_TOKEN_EXPIRE_MINUTES := 60;
          JWT_REFRESH_TOKEN_EXPIRE_DAYS := 7;
          REDIS_TTL_SESSION := 86400;
          REDIS_TTL_INTERACTION := 1800;
          RATE_LIMIT_REQUESTS := 2;
          RATE_LIMIT_PERIOD := 3600 |};
     db := db boot;
     cache := cache boot;
     uuid_stream := uuid_stream boot;
     uuid_draws := 0;
     hf_client := echo_client |}.

(** What the MongoDB driver raises when the server does not answer. *)
Definition STORE_DOWN : exn := PyMongoError "ServerSelectionTimeoutError".

(** Alice has looked her session up, so its snapshot is cached again. *)
Definition alice_session_cached : world :=
  snd (ChatService.get_session "session_0" "alice" alice_chatting).

(** ** Notions for the coherence of the session cache *)


(** A cached session snapshot agrees with a stored session document on
    what never changes: owner and creation time. *)
Definition agrees (c : session_snapshot) (d : session_doc) : Prop :=
  sd_user_id d = ss_user_id c
  /\ format_timestamp (sd_created_at d) = ss_created_at c.

(** The session cache is coherent with the sessions collection: session
    ids are unique in the collection; a snapshot cached under an id
    carries that id and agrees with the document stored under it, if
    there is one; and every id in use was built from a UUID drawn
    earlier, no UUID being drawn twice. *)
Definition coherent (stored : list session_doc)
    (cached : gmap string (entry session_snapshot))
    (stream : nat -> string) (draws : nat) : Prop :=
  NoDup (map sd_session_id stored)
  /\ (forall sid e, cached !! sid = Some e ->
        ss_session_id (e_val e) = sid
        /\ forall d, In d stored -> sd_session_id d = sid ->
             agrees (e_val e) d)
  /\ (forall sid,
        is_Some (cached !! sid) \/ In sid (map sd_session_id stored) ->
        exists k, (k < draws)%nat /\ sid = "session_" +:+ stream k)
  /\ (forall j k, stream j = stream k -> j = k).

Definition session_cache_coherent (w : world) : Prop :=
  coherent (sessions (db w)) (r_sessions (cache w)) (uuid_stream w)
           (uuid_draws w).

(** The service starts with empty stores and a UUID source that does not
    repeat itself. *)
Definition initial (w : world) : Prop :=
  sessions (db w) = []
  /\ r_sessions (cache w) = ∅
  /\ (forall j k, uuid_stream w j = uuid_stream w k -> j = k).

(** One thing that happens to the service: a call of one of its
    operations by anybody with any arguments, the clock moving on, a
    store or the generator going down or coming back. *)
Inductive step : world -> world -> Prop :=
| step_create_session user_id w :
    step w (snd (ChatService.create_session user_id w))
| step_get_session session_id user_id w :
    step w (snd (ChatService.get_session session_id user_id w))
| step_create_interaction session_id user_id w :
    step w (snd (ChatService.create_interaction session_id user_id w))
| step_send_message user_id message session_id interaction_id w :
    step w (snd (ChatService.send_message user_id message session_id
                   interaction_id w))
| step_get_chat_history user_id interaction_id limit w :
    step w (snd (ChatService.get_chat_history user_id interaction_id limit w))
| step_delete_interaction user_id interaction_id w :
    step w (snd (ChatService.delete_interaction user_id interaction_id w))
| step_delete_session user_id session_id w :
    step w (snd (Routes.delete_session user_id session_id w))
| step_check_rate_limit user_id w :
    step w (snd (CacheService.check_rate_limit user_id w))
| step_tick d w : 0 <= d -> step w (tick d w)
| step_redis b w : step w (set_redis_up b w)
| step_mongo b w : step w (set_mongo_up b w)
| step_client f w : step w (set_hf_client f w).

(** The worlds the service can get into. *)
Inductive reachable : world -> Prop :=
| reachable_initial w : initial w -> reachable w
| reachable_step w w' : reachable w -> step w w' -> reachable w'.

(** ** Notions for the cache service *)

(** A method of the cache service that answers and leaves everything but
    the cache as it was. *)
Definition contained {A} (m : M A) : Prop :=
  forall w, exists r c, m w = (Ok r, with_cache c w).

(** * Reasoning about coroutines *)

Section Frames.
Context (R : relation world) `{!PreOrder R}.

Lemma respects_ret {A} (a : A) : respects R (ret a).
Proof. intros w. reflexivity. Qed.

Lemma respects_raise {A} (e : exn) : respects R (raise (A:=A) e).
Proof. intros w. reflexivity. Qed.

Lemma respects_bind {A B} (m : M A) (k : A -> M B) :
  respects R m -> (forall a, respects R (k a)) -> respects R (bind m k).
Proof.
  intros Hm Hk w. unfold bind. specialize (Hm w).
  destruct (m w) as [[a|e] w1]; simpl in *; [|done].
  etrans; [exact Hm | apply Hk].
Qed.

Lemma respects_try_except {A} (m : M A) (h : exn -> M A) :
  respects R m -> (forall e, respects R (h e)) -> respects R (try_except m h).
Proof.
  intros Hm Hh w. unfold try_except. specialize (Hm w).
  destruct (m w) as [[a|e] w1]; simpl in *; [done|].
  etrans; [exact Hm | apply Hh].
Qed.

Lemma respects_get_current_timestamp : respects R get_current_timestamp.
Proof. intros w. reflexivity. Qed.

Lemma respects_get_settings : respects R get_settings.
Proof. intros w. reflexivity. Qed.
End Frames.

Section Stable.
Context (I : world -> Prop).

Lemma stable_ret {A} (a : A) : stable I (ret a).
Proof. intros w H. exact H. Qed.

Lemma stable_raise {A} (e : exn) : stable I (raise (A:=A) e).
Proof. intros w H. exact H. Qed.

Lemma stable_bind {A B} (m : M A) (k : A -> M B) :
  stable I m -> (forall a, stable I (k a)) -> stable I (bind m k).
Proof.
  intros Hm Hk w Hw. unfold bind. specialize (Hm w Hw).
  destruct (m w) as [[a|e] w1]; simpl in *; [|done].
  by apply Hk.
Qed.

Lemma stable_try_except {A} (m : M A) (h : exn -> M A) :
  stable I m -> (forall e, stable I (h e)) -> stable I (try_except m h).
Proof.
  intros Hm Hh w Hw. unfold try_except. specialize (Hm w Hw).
  destruct (m w) as [[a|e] w1]; simpl in *; [done|].
  by apply Hh.
Qed.

Lemma stable_get_current_timestamp : stable I get_current_timestamp.
Proof. intros w H. exact H. Qed.

Lemma stable_get_settings : stable I get_settings.
Proof. intros w H. exact H. Qed.
End Stable.

#[global] Instance keeps_preorder {B} (obs : world -> B) : PreOrder (keeps obs).
Proof.
  split.
  - intros w. reflexivity.
  - intros w1 w2 w3 H12 H23. unfold keeps in *. congruence.
Qed.

(** Every Redis call leaves alone what does not look at the cache, every
    MongoDB call what does not look at the database. *)
Lemma redis_call_keeps {A B} (obs : world -> B)
    (f : Z -> redis -> result A * redis) :
  (forall c w, obs (with_cache c w) = obs w) ->
  respects (keeps obs) (redis_call f).
Proof.
  intros Hobs w. unfold keeps, redis_call.
  destruct (redis_up (cache w)); [|done].
  destruct (f (now w) (cache w)) as [r c]. apply Hobs.
Qed.

Lemma mongo_run_keeps {A B} (obs : world -> B) (c : mongo_call)
    (f : mongo -> result A * mongo) :
  (forall d w, obs (with_db d w) = obs w) ->
  respects (keeps obs) (mongo_run c f).
Proof.
  intros Hobs w. unfold keeps, mongo_run.
  destruct (mongo_up (log_call c (db w))); [|apply Hobs].
  destruct (f (log_call c (db w))) as [r d]. apply Hobs.
Qed.

Lemma generate_uuid_keeps {B} (obs : world -> B) :
  (forall n w, obs (with_draws n w) = obs w) ->
  respects (keeps obs) generate_uuid.
Proof. intros Hobs w. apply Hobs. Qed.

Lemma generate_response_respects (R : relation world) `{!Reflexive R}
    (messages : list turn) :
  respects R (AIService.generate_response messages).
Proof.
  intros w. unfold AIService.generate_response.
  destruct (hf_client w messages); reflexivity.
Qed.

Create HintDb coro discriminated.

#[global] Hint Unfold
  generate_session_id generate_interaction_id generate_message_id
  redis_get_session redis_setex_session redis_delete_session
  redis_exists_session redis_expire_session
  redis_get_interaction redis_setex_interaction redis_delete_interaction
  redis_exists_interaction redis_expire_interaction
  redis_get_rate redis_setex_rate redis_incr_rate
  sessions_find_one sessions_insert_one sessions_update_one
  sessions_delete_one interactions_find_one interactions_insert_one
  interactions_update_one interactions_delete_one
  session_document interaction_document message_pair
  CacheService.cache_session CacheService.get_session
  CacheService.delete_session CacheService.update_session_activity
  CacheService.cache_interaction CacheService.get_interaction
  CacheService.delete_interaction CacheService.check_interaction_expired
  CacheService.check_rate_limit
  ChatService.create_session ChatService.get_session_fallback
  ChatService.get_session ChatService.create_interaction
  ChatService._get_interaction_messages ChatService.resolve_session
  ChatService.reject_expired ChatService.resolve_interaction
  ChatService.exchange ChatService.send_message
  ChatService.get_chat_history ChatService.delete_interaction : coro.

(** A primitive call, settled by running it. *)
Ltac run_primitive :=
  let w := fresh "w" in
  intros w; unfold keeps, redis_call, mongo_run, generate_uuid;
  repeat case_match; simplify_eq/=; done.

(** One layer of a coroutine. *)
Ltac frame_step :=
  lazymatch goal with
  | |- respects _ (bind _ _) => apply respects_bind; [apply _ | | intros ?]
  | |- respects _ (try_except _ _) =>
      apply respects_try_except; [apply _ | | intros ?]
  | |- respects _ (ret _) => apply respects_ret; apply _
  | |- respects _ (raise _) => apply respects_raise; apply _
  | |- respects _ get_current_timestamp =>
      apply respects_get_current_timestamp; apply _
  | |- respects _ get_settings => apply respects_get_settings; apply _
  | |- respects _ (AIService.generate_response _) =>
      apply generate_response_respects; typeclasses eauto
  | |- respects _ (redis_call _) =>
      first [apply redis_call_keeps; reflexivity | run_primitive]
  | |- respects _ (mongo_run _ _) =>
      first [apply mongo_run_keeps; reflexivity | run_primitive]
  | |- respects _ generate_uuid =>
      first [apply generate_uuid_keeps; reflexivity | run_primitive]
  | |- respects _ (match ?x with _ => _ end) => destruct x
  | |- respects _ (let _ := _ in _) => cbv zeta
  end.

Ltac frame := autounfold with coro; repeat frame_step.

(** ** What the session step of [send_message] leaves alone *)

Lemma resolve_session_keeps_clock user_id session_id :
  respects (keeps now) (ChatService.resolve_session user_id session_id).
Proof. frame. Qed.

Lemma resolve_session_keeps_interactions user_id session_id :
  respects (keeps (fun w => interactions (db w)))
           (ChatService.resolve_session user_id session_id).
Proof. frame. Qed.

Lemma resolve_session_keeps_cached_interactions user_id session_id :
  respects (keeps (fun w => r_interactions (cache w)))
           (ChatService.resolve_session user_id session_id).
Proof. frame. Qed.

Lemma resolve_session_keeps_redis_up user_id session_id :
  respects (keeps (fun w => redis_up (cache w)))
           (ChatService.resolve_session user_id session_id).
Proof. frame. Qed.

(** ** Small facts about the world *)

Lemma with_cache_same w : with_cache (cache w) w = w.
Proof. by destruct w. Qed.

Lemma with_db_same w : with_db (db w) w = w.
Proof. by destruct w. Qed.

Lemma nonempty_Some (s : string) : s <> "" -> nonempty (Some s) = Some s.
Proof.
  intros Hs. unfold nonempty.
  destruct (String.eqb_spec s ""); [done | reflexivity].
Qed.

(** ** The expiry check *)

Lemma check_interaction_expired_absent w interaction_id :
  kv_get (now w) (r_interactions (cache w)) interaction_id = None ->
  CacheService.check_interaction_expired interaction_id w = (Ok true, w).
Proof.
  intros Habs.
  unfold CacheService.check_interaction_expired, try_except, bind,
    redis_exists_interaction, redis_call, kv_exists, ret.
  destruct (redis_up (cache w)); [|reflexivity].
  rewrite Habs, with_cache_same. reflexivity.
Qed.

Lemma check_interaction_expired_down w interaction_id :
  redis_up (cache w) = false ->
  CacheService.check_interaction_expired interaction_id w = (Ok true, w).
Proof.
  intros Hdown.
  unfold CacheService.check_interaction_expired, try_except, bind,
    redis_exists_interaction, redis_call.
  rewrite Hdown. reflexivity.
Qed.

Lemma check_interaction_expired_live w interaction_id snapshot :
  redis_up (cache w) = true ->
  kv_get (now w) (r_interactions (cache w)) interaction_id = Some snapshot ->
  CacheService.check_interaction_expired interaction_id w = (Ok false, w).
Proof.
  intros Hup Hlive.
  unfold CacheService.check_interaction_expired, try_except, bind,
    redis_exists_interaction, redis_call, kv_exists, ret.
  rewrite Hup, Hlive, with_cache_same. reflexivity.
Qed.

Lemma reject_expired_absent w interaction_id :
  interaction_id <> "" ->
  kv_get (now w) (r_interactions (cache w)) interaction_id = None ->
  ChatService.reject_expired (Some interaction_id) w = (Raise EXPIRED, w).
Proof.
  intros Hid Habs. unfold ChatService.reject_expired.
  rewrite (nonempty_Some _ Hid). unfold bind.
  rewrite (check_interaction_expired_absent _ _ Habs). reflexivity.
Qed.

Lemma reject_expired_down w interaction_id :
  interaction_id <> "" ->
  redis_up (cache w) = false ->
  ChatService.reject_expired (Some interaction_id) w = (Raise EXPIRED, w).
Proof.
  intros Hid Hdown. unfold ChatService.reject_expired.
  rewrite (nonempty_Some _ Hid). unfold bind.
  rewrite (check_interaction_expired_down _ _ Hdown). reflexivity.
Qed.

(** [send_message] once its session step has answered. *)
Lemma send_message_after_session w user_id message session_id interaction_id :
  ChatService.send_message user_id message session_id interaction_id w =
  match ChatService.resolve_session user_id session_id w with
  | (Raise e, w1) =>
      (Raise (if is_ValueError e then e
              else PlainException ("Failed to send message: " +:+ exn_str e)),
       w1)
  | (Ok sid, w1) =>
      try_except
        (ChatService.reject_expired interaction_id ;;;
         iid <~ ChatService.resolve_interaction sid user_id interaction_id ;;
         ChatService.exchange sid iid (sanitize_message message 10000))
        (fun e =>
           if is_ValueError e then raise e
           else raise (PlainException
                         ("Failed to send message: " +:+ exn_str e)))
        w1
  end.
Proof.
  unfold ChatService.send_message, try_except, bind at 1.
  destruct (ChatService.resolve_session user_id session_id w) as [[sid|e] w1].
  - reflexivity.
  - by destruct (is_ValueError e).
Qed.

(** C1, as the code has it. A [send_message] call that names a
    (non-empty) interaction id whose cache entry is absent, be it deleted
    or past its time to live: the session step, which the call runs
    first, leaves the stored and the cached interactions as they were;
    the expiry check then raises the "Interaction expired" [ValueError]
    whatever MongoDB holds, reachable or not, without calling it (the
    world, call log included, is left as it is). So when the session
    step answers with a session the call ends with "Interaction expired",
    and when the session step raises the call ends with the session
    step's error, re-raised as [send_message] re-raises: a [ValueError]
    as it is, anything else wrapped as "Failed to send message". Either
    way the call ends in the world the session step left: no interaction
    is created or cached under the id. *)
Theorem send_message_expired_interaction
    (w : world) (user_id message : string) (session_id : option string)
    (interaction_id : string) :
  interaction_id <> "" ->
  kv_get (now w) (r_interactions (cache w)) interaction_id = None ->
  let r1 := fst (ChatService.resolve_session user_id session_id w) in
  let w1 := snd (ChatService.resolve_session user_id session_id w) in
  interactions (db w1) = interactions (db w)
  /\ r_interactions (cache w1) = r_interactions (cache w)
  /\ (forall d : mongo,
        ChatService.reject_expired (Some interaction_id) (with_db d w1)
        = (Raise EXPIRED, with_db d w1))
  /\ match r1 with
     | Ok _ =>
         ChatService.send_message user_id message session_id
           (Some interaction_id) w = (Raise EXPIRED, w1)
     | Raise e =>
         ChatService.send_message user_id message session_id
           (Some interaction_id) w = (Raise (send_message_reraise e), w1)
     end.
Proof.
  intros Hid Habs r1 w1.
  pose proof (resolve_session_keeps_interactions user_id session_id w) as Hi.
  pose proof (resolve_session_keeps_cached_interactions user_id session_id w)
    as Hc.
  pose proof (resolve_session_keeps_clock user_id session_id w) as Ht.
  unfold keeps in Hi, Hc, Ht. fold w1 in Hi, Hc, Ht.
  assert (Habs1 : kv_get (now w1) (r_interactions (cache w1)) interaction_id
                  = None) by (by rewrite Ht, Hc).
  split; [exact Hi|]. split; [exact Hc|]. split.
  - intros d. apply reject_expired_absent; [exact Hid | exact Habs1].
  - rewrite send_message_after_session. subst r1 w1.
    destruct (ChatService.resolve_session user_id session_id w)
      as [[sid|e] w1]; simpl in *.
    + unfold try_except, bind.
      rewrite (reject_expired_absent _ _ Hid Habs1). reflexivity.
    + reflexivity.
Qed.

(** The hypotheses of [send_message_expired_interaction] can be met:
    Alice's interaction once its cache entry has lapsed. *)
Lemma send_message_expired_interaction_witness :
  let call :=
    ChatService.send_message "alice" "are you there?" (Some "session_0")
      (Some "interaction_1") (tick 1800 alice_chatting) in
  fst call = Raise EXPIRED
  /\ interactions (db (snd call)) = interactions (db alice_chatting).
Proof.
  intros call.
  pose proof (send_message_expired_interaction (tick 1800 alice_chatting)
                "alice" "are you there?" (Some "session_0") "interaction_1")
    as H.
  destruct H as (Hi & _ & _ & H); [done | by vm_compute |].
  fold call in H. clearbody call. vm_compute in H. subst call.
  split; [reflexivity | by vm_compute].
Defined.

(** C1 as stated fails: not every call that names an absent interaction
    ends with "Interaction expired". The session step comes first: Bob
    naming Alice's session is refused with "Invalid session_id", and a
    call without a session id while MongoDB does not answer ends with the
    driver's error wrapped as "Failed to send message". In both calls the
    interaction id is in neither store; Alice's call in her own session
    gets the expired error. *)
Lemma send_message_absent_interaction_other_error :
  let w := alice_chatting in
  let w' := set_mongo_up false alice_chatting in
  kv_get (now w) (r_interactions (cache w)) "interaction_9" = None
  /\ List.find (fun d => String.eqb (id_interaction_id d) "interaction_9")
               (interactions (db w)) = None
  /\ fst (ChatService.send_message "bob" "hello" (Some "session_0")
            (Some "interaction_9") w)
     = Raise (ValueError "Invalid session_id")
  /\ fst (ChatService.send_message "alice" "hello" None
            (Some "interaction_9") w')
     = Raise (PlainException
                "Failed to send message: ServerSelectionTimeoutError")
  /\ fst (ChatService.send_message "alice" "hello" (Some "session_0")
            (Some "interaction_9") w)
     = Raise EXPIRED.
Proof. by vm_compute. Qed.

(** ** The rate limiter when Redis does not answer *)

Lemma check_rate_limit_down w user_id :
  redis_up (cache w) = false ->
  CacheService.check_rate_limit user_id w = (Ok true, w).
Proof.
  intros Hdown.
  unfold CacheService.check_rate_limit, try_except, bind, get_settings,
    redis_get_rate, redis_call.
  rewrite Hdown. reflexivity.
Qed.

(** C10, as the code has it. While Redis does not answer,
    [check_interaction_expired] reports every interaction as expired, the
    rate limiter lets every request through, and a [send_message] call
    that names a (non-empty) interaction id is rejected: with the
    "Interaction expired" error when its session step, which runs first,
    answers with a session, and otherwise with the session step's error,
    re-raised as [send_message] re-raises (a [ValueError] as it is,
    anything else wrapped as "Failed to send message"). *)
Theorem expiry_check_fails_closed (w : world) :
  redis_up (cache w) = false ->
  (forall interaction_id,
     CacheService.check_interaction_expired interaction_id w = (Ok true, w))
  /\ (forall user_id,
        CacheService.check_rate_limit user_id w = (Ok true, w))
  /\ (forall user_id message session_id interaction_id,
        interaction_id <> "" ->
        let r1 := fst (ChatService.resolve_session user_id session_id w) in
        let w1 := snd (ChatService.resolve_session user_id session_id w) in
        match r1 with
        | Ok _ =>
            ChatService.send_message user_id message session_id
              (Some interaction_id) w = (Raise EXPIRED, w1)
        | Raise e =>
            ChatService.send_message user_id message session_id
              (Some interaction_id) w = (Raise (send_message_reraise e), w1)
        end).
Proof.
  intros Hdown. split; [|split].
  - intros iid. by apply check_interaction_expired_down.
  - intros u. by apply check_rate_limit_down.
  - intros u m sid iid Hid r1 w1.
    pose proof (resolve_session_keeps_redis_up u sid w) as Hup.
    unfold keeps in Hup. fold w1 in Hup. rewrite Hdown in Hup.
    rewrite send_message_after_session. subst r1 w1.
    destruct (ChatService.resolve_session u sid w) as [[s|e] w1]; simpl in *.
    + unfold try_except, bind.
      rewrite (reject_expired_down _ _ Hid Hup). reflexivity.
    + reflexivity.
Qed.

(** The hypothesis of [expiry_check_fails_closed] can be met: Alice's
    interaction is still cached when Redis stops answering. *)
Lemma expiry_check_fails_closed_witness :
  kv_get (now alice_chatting) (r_interactions (cache alice_chatting))
    "interaction_1" <> None
  /\ fst (ChatService.send_message "alice" "still there?" (Some "session_0")
            (Some "interaction_1") (set_redis_up false alice_chatting))
     = Raise EXPIRED
  /\ fst (CacheService.check_rate_limit "alice"
            (set_redis_up false alice_chatting)) = Ok true.
Proof.
  destruct (expiry_check_fails_closed (set_redis_up false alice_chatting))
    as (_ & Hrate & Hsend); [reflexivity|].
  split; [by vm_compute|]. split.
  - specialize (Hsend "alice" "still there?" (Some "session_0")
                  "interaction_1").
    set (call := ChatService.send_message _ _ _ _ _) in *. clearbody call.
    vm_compute in Hsend. rewrite Hsend; done.
  - by rewrite Hrate.
Defined.

(** C10 as stated fails: while Redis does not answer, a call that names
    an interaction id is not always rejected with "Interaction expired".
    Bob naming Alice's session and Alice's interaction is refused by the
    session step with "Invalid session_id"; Alice's own call gets the
    expired error. *)
Lemma expiry_check_down_other_error :
  let w := set_redis_up false alice_chatting in
  fst (ChatService.send_message "bob" "hello" (Some "session_0")
         (Some "interaction_1") w)
  = Raise (ValueError "Invalid session_id")
  /\ fst (ChatService.send_message "alice" "hello" (Some "session_0")
            (Some "interaction_1") w)
     = Raise EXPIRED.
Proof. by vm_compute. Qed.

(** ** A failing generator *)


#[global] Instance stored_messages_kept_preorder : PreOrder stored_messages_kept.
Proof.
  split.
  - intros w. exists []. by rewrite app_nil_r.
  - intros w1 w2 w3 (f1 & E1 & F1) (f2 & E2 & F2).
    exists (f1 ++ f2). split.
    + by rewrite E2, E1, app_assoc.
    + by apply Forall_app.
Qed.

Lemma snapshots_kept_refl m : snapshots_kept m m.
Proof. intros k. destruct (m !! k) eqn:E; eauto. Qed.

Lemma snapshots_kept_trans m1 m2 m3 :
  snapshots_kept m1 m2 -> snapshots_kept m2 m3 -> snapshots_kept m1 m3.
Proof.
  intros H12 H23 k. specialize (H12 k). specialize (H23 k).
  destruct (m3 !! k) as [e3|].
  - destruct H23 as [?|(e2 & E2 & V2)]; [by left|].
    rewrite E2 in H12. destruct H12 as [?|(e1 & E1 & V1)].
    + left. congruence.
    + right. exists e1. split; [done | congruence].
  - by rewrite H23 in H12.
Qed.



#[global] Instance cached_messages_kept_preorder : PreOrder cached_messages_kept.
Proof.
  split.
  - intros w. apply snapshots_kept_refl.
  - intros w1 w2 w3. apply snapshots_kept_trans.
Qed.











(** A coroutine run to the end, one case per way through it. *)
Ltac run_coro :=
  autounfold with coro;
  unfold try_except, bind, ret, raise, redis_call, mongo_run, generate_uuid,
    get_current_timestamp, get_settings;
  simpl; repeat case_match; simplify_eq/=.






Lemma reject_expired_keeps_world interaction_id :
  respects (keeps (fun w => w)) (ChatService.reject_expired interaction_id).
Proof.
  intros w. unfold keeps. run_coro; try done.
  all: by rewrite with_cache_same.
Qed.

Lemma send_message_after_prelude w user_id message session_id interaction_id :
  ChatService.send_message user_id message session_id interaction_id w =
  match send_message_prelude user_id session_id interaction_id w with
  | (Raise e, w1) => (Raise (send_message_reraise e), w1)
  | (Ok (sid, iid), w1) =>
      match ChatService.exchange sid iid (sanitize_message message 10000) w1
      with
      | (Ok sent, w2) => (Ok sent, w2)
      | (Raise e, w2) => (Raise (send_message_reraise e), w2)
      end
  end.
Proof.
  unfold ChatService.send_message, send_message_prelude, send_message_reraise,
    try_except, bind, ret, raise.
  destruct (ChatService.resolve_session user_id session_id w) as [[sid|e] w1];
    [|by destruct (is_ValueError e)].
  destruct (ChatService.reject_expired interaction_id w1) as [[[]|e] w2];
    [|by destruct (is_ValueError e)].
  destruct (ChatService.resolve_interaction sid user_id interaction_id w2)
    as [[iid|e] w3]; [|by destruct (is_ValueError e)].
  destruct (ChatService.exchange sid iid (sanitize_message message 10000) w3)
    as [[sent|e] w4]; [done | by destruct (is_ValueError e)].
Qed.





(** The history read of [send_message] always answers. *)
Lemma get_interaction_messages_total interaction_id w :
  exists history,
    fst (ChatService._get_interaction_messages interaction_id w) = Ok history.
Proof.
  unfold ChatService._get_interaction_messages, try_except, ret.
  match goal with |- context [match ?m w with _ => _ end] =>
    destruct (m w) as [[h|e] w1] end; simpl; eauto.
Qed.




(** ** Ownership of an interaction named in [send_message] *)

(** C2, on the code. Bob, in a session of his own, names the
    interaction of Alice while it is cached. The call succeeds: the
    generator is handed Alice's conversation (its answer repeats her
    message), and the pair Bob sent is appended to Alice's interaction in
    MongoDB and in the cache. Naming an interaction nobody has is
    rejected as expired, so the two cases are told apart, while
    [get_chat_history] and [delete_interaction] answer "Interaction not
    found" to Bob for the same interaction. *)
Theorem send_message_foreign_interaction :
  let call :=
    ChatService.send_message "bob" "steal" (Some "session_3")
      (Some "interaction_1") alice_and_bob in
  map id_user_id (interactions (db alice_and_bob)) = ["alice"]
  /\ fst call =
     Ok {| sm_session_id := "session_3";
           sm_interaction_id := "interaction_1";
           sm_message_id := "message_4";
           sm_user_message := "steal";
           sm_ai_response := "hello / hello / steal";
           sm_timestamp := Iso 1000 |}
  /\ map (fun d => (id_user_id d, map md_user_message (id_messages d)))
         (interactions (db (snd call)))
     = [("alice", ["hello"; "steal"])]
  /\ (is_messages <$>
        kv_get 1000 (r_interactions (cache (snd call))) "interaction_1")
     = Some [ {| mv_message_id := "message_2"; mv_user_message := "hello";
                 mv_ai_response := "hello"; mv_timestamp := Iso 1000;
                 mv_metadata := None |};
              {| mv_message_id := "message_4"; mv_user_message := "steal";
                 mv_ai_response := "hello / hello / steal";
                 mv_timestamp := Iso 1000; mv_metadata := None |} ]
  /\ fst (ChatService.send_message "bob" "steal" (Some "session_3")
            (Some "interaction_nobody") alice_and_bob) = Raise EXPIRED
  /\ fst (ChatService.get_chat_history "bob" "interaction_1" 50 alice_and_bob)
     = Raise (ValueError "Interaction not found")
  /\ fst (ChatService.delete_interaction "bob" "interaction_1" alice_and_bob)
     = Raise (ValueError "Interaction not found").
Proof. vm_compute. repeat split; reflexivity. Qed.

(** ** The tail slice of the history *)

Lemma py_slice_from_zero {A} (l : list A) : py_slice_from (- 0) l = l.
Proof. unfold py_slice_from. simpl. by rewrite Z.min_l by lia. Qed.

(** For a limit of at least one, [l[-limit:]] is the last
    [min limit (len l)] elements, in order. *)
Lemma py_slice_from_tail {A} (limit : Z) (l : list A) :
  1 <= limit ->
  py_slice_from (- limit) l
  = drop (length l - Z.to_nat (Z.min limit (Z.of_nat (length l)))) l
  /\ Z.of_nat (length (py_slice_from (- limit) l))
     = Z.min limit (Z.of_nat (length l)).
Proof.
  intros Hlimit. unfold py_slice_from.
  destruct (Z.ltb_spec (- limit) 0) as [_|?]; [|lia].
  assert (Z.to_nat (Z.max 0 (Z.of_nat (length l) + - limit))
          = (length l - Z.to_nat (Z.min limit (Z.of_nat (length l))))%nat)
    as -> by lia.
  split; [reflexivity|]. rewrite length_drop. lia.
Qed.

(** C4, on the code. Alice's interaction holds three pairs. Asked for
    the last 0 the history returns all three, from the cache and, once
    the cache entry has lapsed, from MongoDB alike; asked for the last 2
    it returns the last two in order; the total is 3 each time. *)
Theorem get_chat_history_limit_zero :
  let ids (r : response chat_history) :=
    match r with
    | Success h _ => Some (map mv_user_message (ch_messages h),
                           ch_total_messages h)
    | _ => None
    end in
  ids (fst (Routes.get_chat_history "alice" "interaction_1" 0
              alice_three_messages))
  = Some (["hello"; "second"; "third"], 3)
  /\ ids (fst (Routes.get_chat_history "alice" "interaction_1" 0
                 (tick 1800 alice_three_messages)))
     = Some (["hello"; "second"; "third"], 3)
  /\ ids (fst (Routes.get_chat_history "alice" "interaction_1" 2
                 alice_three_messages))
     = Some (["second"; "third"], 3)
  /\ (forall (l : list message_view), py_slice_from (- 0) l = l).
Proof.
  split; [by vm_compute|]. split; [by vm_compute|]. split; [by vm_compute|].
  apply @py_slice_from_zero.
Qed.

(** ** Tokens *)

(** C6, on the code. In a process whose local time zone is five hours
    behind UTC, the access token issued for a user is refused by
    [verify_access_token] at the very instant it was issued: the
    signature and the expiry check of the library pass, the second expiry
    check compares the UTC clock with the local time of the expiry. The
    same token is accepted in a process that runs in UTC. *)
Theorem verify_access_token_west_of_utc :
  AuthService.verify_access_token boot_utc_minus_5
    (AuthService.create_access_token boot_utc_minus_5 "user_1" "a@example.org")
  = Ok None
  /\ AuthService.decode_token boot_utc_minus_5
       (AuthService.create_access_token boot_utc_minus_5 "user_1"
          "a@example.org")
     = Ok (Some {| AuthService.p_user_id := "user_1";
                   AuthService.p_email := "a@example.org";
                   AuthService.p_exp := 4600;
                   AuthService.p_type := "access" |})
  /\ AuthService.verify_access_token boot
       (AuthService.create_access_token boot "user_1" "a@example.org")
     = Ok (Some {| AuthService.p_user_id := "user_1";
                   AuthService.p_email := "a@example.org";
                   AuthService.p_exp := 4600;
                   AuthService.p_type := "access" |}).
Proof. by vm_compute. Qed.

(** What does hold of the token service, in every time zone or in those
    not too far west. *)

Lemma verify_token_expired kind w claims sig :
  AuthService.p_exp claims < now w ->
  AuthService.verify_token kind w (AuthService.Jws claims sig) = Ok None.
Proof.
  intros Hexp.
  unfold AuthService.verify_token, AuthService.decode_token,
    AuthService.jwt_decode.
  destruct (bool_decide _); [|reflexivity].
  destruct (Z.ltb_spec (AuthService.p_exp claims) (now w)); [reflexivity|lia].
Qed.

Lemma verify_access_token_refresh w w' user_id email :
  AuthService.verify_access_token w'
    (AuthService.create_refresh_token w user_id email) = Ok None.
Proof.
  unfold AuthService.verify_access_token, AuthService.verify_token,
    AuthService.decode_token, AuthService.jwt_decode,
    AuthService.create_refresh_token, AuthService.jwt_encode.
  repeat case_match; simplify_eq/=; done.
Qed.

Lemma verify_access_token_fresh w user_id email :
  0 <= JWT_ACCESS_TOKEN_EXPIRE_MINUTES (settings w) ->
  0 <= 60 * JWT_ACCESS_TOKEN_EXPIRE_MINUTES (settings w) + utc_offset w ->
  exists payload,
    AuthService.verify_access_token w
      (AuthService.create_access_token w user_id email) = Ok (Some payload)
    /\ AuthService.p_user_id payload = user_id
    /\ AuthService.p_email payload = email.
Proof.
  intros Hm Hoff.
  exists {| AuthService.p_user_id := user_id; AuthService.p_email := email;
            AuthService.p_exp :=
              now w + 60 * JWT_ACCESS_TOKEN_EXPIRE_MINUTES (settings w);
            AuthService.p_type := "access" |}.
  split; [|split; reflexivity].
  unfold AuthService.verify_access_token, AuthService.verify_token,
    AuthService.decode_token, AuthService.jwt_decode,
    AuthService.create_access_token, AuthService.jwt_encode,
    AuthService.past_expiry, AuthService.fromtimestamp, AuthService.utcnow.
  rewrite bool_decide_eq_true_2 by reflexivity. simpl.
  destruct (Z.ltb_spec (now w + 60 * JWT_ACCESS_TOKEN_EXPIRE_MINUTES
                                     (settings w)) (now w)); [lia|].
  simpl.
  destruct (Z.ltb_spec (now w + 60 * JWT_ACCESS_TOKEN_EXPIRE_MINUTES
                                     (settings w) + utc_offset w) (now w));
    [lia|].
  by rewrite andb_false_r.
Qed.

(** ** The rate limiter *)

Section RateLimit.
Context (user_id : string).

(** No live counter: the request is let through and opens a window. *)
Lemma check_rate_limit_first w :
  redis_up (cache w) = true ->
  0 < RATE_LIMIT_PERIOD (settings w) ->
  kv_get (now w) (r_rate (cache w)) user_id = None ->
  CacheService.check_rate_limit user_id w
  = (Ok true,
     with_cache
       (with_r_rate
          (<[user_id := Entry 1 (Some (now w + RATE_LIMIT_PERIOD (settings w)))]>
             (r_rate (cache w)))
          (cache w)) w).
Proof.
  intros Hup Hp Hnone.
  unfold CacheService.check_rate_limit, try_except, bind, get_settings,
    redis_get_rate, redis_setex_rate, redis_call, ret.
  rewrite Hup, Hnone, with_cache_same. simpl. rewrite Hup.
  destruct (Z.ltb_spec 0 (RATE_LIMIT_PERIOD (settings w))); [|lia].
  reflexivity.
Qed.

(** A live counter below the limit: the request is let through, the
    counter goes up by one and keeps its expiry. *)
Lemma check_rate_limit_below w c x :
  redis_up (cache w) = true ->
  rate_counter w user_id = Some (Entry c (Some x)) ->
  now w < x ->
  c < RATE_LIMIT_REQUESTS (settings w) ->
  CacheService.check_rate_limit user_id w
  = (Ok true,
     with_cache
       (with_r_rate (<[user_id := Entry (c + 1) (Some x)]> (r_rate (cache w)))
                    (cache w)) w).
Proof.
  unfold rate_counter. intros Hup Hc Hlive Hbelow.
  unfold CacheService.check_rate_limit, try_except, bind, get_settings,
    redis_get_rate, redis_incr_rate, redis_call, ret, kv_get, kv_incr, live.
  rewrite Hup, Hc. simpl.
  destruct (Z.ltb_spec (now w) x); [|lia].
  rewrite with_cache_same.
  destruct (Z.leb_spec (RATE_LIMIT_REQUESTS (settings w)) c); [lia|].
  simpl. rewrite Hup, Hc. simpl.
  destruct (Z.ltb_spec (now w) x); [|lia]. reflexivity.
Qed.

(** A live counter at the limit: the request is denied and nothing
    changes. *)
Lemma check_rate_limit_reached w c x :
  redis_up (cache w) = true ->
  rate_counter w user_id = Some (Entry c (Some x)) ->
  now w < x ->
  RATE_LIMIT_REQUESTS (settings w) <= c ->
  CacheService.check_rate_limit user_id w = (Ok false, w).
Proof.
  unfold rate_counter. intros Hup Hc Hlive Hreached.
  unfold CacheService.check_rate_limit, try_except, bind, get_settings,
    redis_get_rate, redis_call, ret, kv_get, live.
  rewrite Hup, Hc. simpl.
  destruct (Z.ltb_spec (now w) x); [|lia].
  rewrite with_cache_same.
  destruct (Z.leb_spec (RATE_LIMIT_REQUESTS (settings w)) c); [|lia].
  reflexivity.
Qed.

(** A counter whose time to live has lapsed counts as none. *)
Lemma kv_get_lapsed w c x :
  rate_counter w user_id = Some (Entry c (Some x)) ->
  x <= now w ->
  kv_get (now w) (r_rate (cache w)) user_id = None.
Proof.
  unfold rate_counter, kv_get, live. intros -> Hx. simpl.
  destruct (Z.ltb_spec (now w) x); [lia | reflexivity].
Qed.

(** Requests inside an open window, as long as the limit is not reached:
    all let through, each adds one, the expiry stays. *)
Lemma requests_in_window delays : forall w c x,
  redis_up (cache w) = true ->
  rate_counter w user_id = Some (Entry c (Some x)) ->
  Forall (fun d => 0 <= d) delays ->
  now w + total delays < x ->
  c + Z.of_nat (length delays) <= RATE_LIMIT_REQUESTS (settings w) ->
  let w' := snd (requests user_id delays w) in
  Forall (fun r => r = Ok true) (fst (requests user_id delays w))
  /\ rate_counter w' user_id
     = Some (Entry (c + Z.of_nat (length delays)) (Some x))
  /\ now w' = now w + total delays
  /\ redis_up (cache w') = true
  /\ settings w' = settings w.
Proof.
  induction delays as [|d delays IH]; intros w c x Hup Hc Hpos Hin Hroom.
  - simpl. rewrite Z.add_0_r. repeat split; [constructor | done | lia | done].
  - inversion Hpos as [|? ? Hd Hpos']; subst. simpl in Hin, Hroom.
    assert (0 <= total delays).
    { clear -Hpos'. induction Hpos'; simpl; lia. }
    cbn [requests].
    rewrite (check_rate_limit_below (tick d w) c x); simpl; try done; try lia.
    set (w1 := with_cache _ (tick d w)).
    specialize (IH w1 (c + 1) x).
    destruct IH as (Hall & Hcnt & Hnow & Hup' & Hset); subst w1; simpl;
      try done; try lia.
    { unfold rate_counter. simpl. by rewrite lookup_insert_eq. }
    destruct (requests user_id delays _) as [rs w2]; simpl in *.
    repeat split; try done.
    + by constructor.
    + rewrite Hcnt. do 2 f_equal. lia.
    + lia.
Qed.

End RateLimit.

(** C5. A user without a live counter, Redis answering, a limit of at
    least one and a positive window length. The first request is let
    through and creates the counter at 1, expiring one window length
    later. Whatever further requests follow inside the window, as long as
    they are at most limit - 1: each is let through and the counter
    counts them, its expiry still that of the first request. When they
    are exactly limit - 1, a request inside the window is denied and
    changes nothing. Once the window has lapsed, the next request is let
    through and the counter is 1 again, with a new expiry. *)
Theorem rate_limit_fixed_window
    (w : world) (user_id : string) (delays : list Z) :
  let L := RATE_LIMIT_REQUESTS (settings w) in
  let P := RATE_LIMIT_PERIOD (settings w) in
  redis_up (cache w) = true ->
  1 <= L ->
  0 < P ->
  kv_get (now w) (r_rate (cache w)) user_id = None ->
  Forall (fun d => 0 <= d) delays ->
  total delays < P ->
  Z.of_nat (length delays) <= L - 1 ->
  let first := CacheService.check_rate_limit user_id w in
  let rest := requests user_id delays (snd first) in
  let w2 := snd rest in
  fst first = Ok true
  /\ rate_counter (snd first) user_id = Some (Entry 1 (Some (now w + P)))
  /\ Forall (fun r => r = Ok true) (fst rest)
  /\ rate_counter w2 user_id
     = Some (Entry (1 + Z.of_nat (length delays)) (Some (now w + P)))
  /\ (Z.of_nat (length delays) = L - 1 ->
      forall d, 0 <= d -> total delays + d < P ->
        CacheService.check_rate_limit user_id (tick d w2)
        = (Ok false, tick d w2))
  /\ (forall d, P <= total delays + d ->
        let late := CacheService.check_rate_limit user_id (tick d w2) in
        fst late = Ok true
        /\ rate_counter (snd late) user_id
           = Some (Entry 1 (Some (now w + total delays + d + P)))).
Proof.
  intros L P Hup HL HP Hnone Hpos Hin Hlen first rest w2.
  subst first rest w2.
  rewrite (check_rate_limit_first user_id w Hup HP Hnone). simpl.
  set (w1 := with_cache _ w).
  assert (Hc1 : rate_counter w1 user_id = Some (Entry 1 (Some (now w + P)))).
  { unfold rate_counter, w1. simpl. by rewrite lookup_insert_eq. }
  destruct (requests_in_window user_id delays w1 1 (now w + P) Hup Hc1 Hpos
              ltac:(simpl; lia) ltac:(simpl; fold L; lia))
    as (Hall & Hcnt & Hnow & Hup2 & Hset).
  set (w2 := snd (requests user_id delays w1)) in *.
  change (now w1) with (now w) in Hnow.
  change (settings w1) with (settings w) in Hset.
  assert (Hlapsed : forall d, P <= total delays + d ->
            kv_get (now (tick d w2)) (r_rate (cache (tick d w2))) user_id
            = None).
  { intros d Hd.
    apply (kv_get_lapsed user_id (tick d w2)
             (1 + Z.of_nat (length delays)) (now w + P)); [exact Hcnt|].
    simpl. lia. }
  repeat split; try done.
  - intros Hfull d Hd Hlate.
    apply (check_rate_limit_reached user_id (tick d w2)
             (1 + Z.of_nat (length delays)) (now w + P)).
    + exact Hup2.
    + exact Hcnt.
    + simpl. lia.
    + simpl. rewrite Hset. fold L. lia.
  - rewrite check_rate_limit_first;
      [reflexivity | exact Hup2 | | by apply Hlapsed].
    simpl. by rewrite Hset.
  - rewrite check_rate_limit_first; [| exact Hup2 | | by apply Hlapsed].
    + unfold rate_counter. simpl. rewrite lookup_insert_eq, Hset, Hnow.
      do 3 f_equal; fold P; lia.
    + simpl. by rewrite Hset.
Qed.

(** The hypotheses of [rate_limit_fixed_window] can be met: with a limit
    of two, the second request ten minutes after the first. *)
Lemma rate_limit_fixed_window_witness :
  let first := CacheService.check_rate_limit "alice" boot_limit_2 in
  let w2 := snd (requests "alice" [600] (snd first)) in
  fst first = Ok true
  /\ fst (requests "alice" [600] (snd first)) = [Ok true]
  /\ rate_counter w2 "alice" = Some (Entry 2 (Some 4600))
  /\ fst (CacheService.check_rate_limit "alice" (tick 600 w2)) = Ok false
  /\ fst (CacheService.check_rate_limit "alice" (tick 3000 w2)) = Ok true.
Proof.
  intros first w2.
  destruct (rate_limit_fixed_window boot_limit_2 "alice" [600])
    as (H1 & _ & H2 & H3 & H4 & H5);
    [reflexivity | by vm_compute | by vm_compute | reflexivity
    | by repeat constructor | by vm_compute | by vm_compute |].
  fold first in H1, H2, H3, H4, H5. fold w2 in H3, H4, H5.
  split; [exact H1|]. split; [by vm_compute|]. split; [exact H3|]. split.
  - rewrite (H4 eq_refl 600); [reflexivity | lia | by vm_compute].
  - apply (H5 3000). by vm_compute.
Defined.

(** ** When MongoDB does not answer *)

Lemma mongo_run_down {A} (c : mongo_call) (f : mongo -> result A * mongo) w :
  mongo_up (db w) = false ->
  mongo_run c f w = (Raise STORE_DOWN, with_db (log_call c (db w)) w).
Proof. intros Hdown. unfold mongo_run. simpl. by rewrite Hdown. Qed.

Lemma create_session_store_down w user_id :
  mongo_up (db w) = false ->
  fst (ChatService.create_session user_id w) = Raise STORE_DOWN.
Proof. intros Hdown. run_coro; first [reflexivity | congruence]. Qed.

Lemma create_interaction_store_down w session_id user_id :
  mongo_up (db w) = false ->
  fst (ChatService.create_interaction session_id user_id w) = Raise STORE_DOWN.
Proof.
  intros Hdown.
  unfold ChatService.create_interaction, try_except, generate_interaction_id,
    interaction_document, interactions_insert_one.
  unfold bind, ret, generate_uuid, get_current_timestamp.
  cbv beta iota. by rewrite mongo_run_down by exact Hdown.
Qed.

Lemma delete_interaction_store_down w user_id interaction_id :
  mongo_up (db w) = false ->
  fst (ChatService.delete_interaction user_id interaction_id w)
  = Raise STORE_DOWN.
Proof. intros Hdown. run_coro; first [reflexivity | congruence]. Qed.

Lemma get_chat_history_store_down w user_id interaction_id limit :
  mongo_up (db w) = false ->
  redis_up (cache w) = false
  \/ ChatService.owned_interaction
       (kv_get (now w) (r_interactions (cache w)) interaction_id) user_id
     = None ->
  fst (ChatService.get_chat_history user_id interaction_id limit w)
  = Raise STORE_DOWN.
Proof.
  intros Hdown Hmiss. run_coro; try reflexivity; try congruence.
  all: destruct Hmiss as [?|Hmiss]; [congruence|].
  all: match goal with H : kv_get _ _ _ = _ |- _ => rewrite H in Hmiss end.
  all: simpl in Hmiss; congruence.
Qed.

(** The one reader that does not let the failure through: without a
    cached snapshot owned by the caller, [get_session] answers [None]. *)
Lemma get_session_store_down w session_id user_id :
  mongo_up (db w) = false ->
  redis_up (cache w) = false
  \/ ChatService.owned_session
       (kv_get (now w) (r_sessions (cache w)) session_id) user_id = false ->
  fst (ChatService.get_session session_id user_id w) = Ok None.
Proof.
  intros Hdown Hmiss. run_coro; try reflexivity; try congruence.
  all: destruct Hmiss; congruence.
Qed.

Lemma exchange_store_down w session_id interaction_id message :
  mongo_up (db w) = false ->
  forall sent,
    fst (ChatService.exchange session_id interaction_id message w) <> Ok sent.
Proof.
  intros Hdown sent.
  unfold ChatService.exchange, bind at 1.
  pose proof (get_interaction_messages_total interaction_id w) as [h Hh].
  assert (Hd : mongo_up (db (snd (ChatService._get_interaction_messages
                                    interaction_id w))) = false).
  { rewrite <- Hdown.
    assert (respects (keeps (fun w => mongo_up (db w)))
              (ChatService._get_interaction_messages interaction_id)) as Hk
      by frame.
    apply Hk. }
  destruct (ChatService._get_interaction_messages interaction_id w)
    as [r w1]; simpl in *; subst r.
  unfold bind at 1, AIService.generate_response.
  destruct (hf_client w1 _); [|done].
  unfold generate_message_id, message_pair, interactions_update_one.
  unfold bind, ret, generate_uuid, get_current_timestamp.
  cbv beta iota. by rewrite mongo_run_down by exact Hd.
Qed.

Lemma send_message_prelude_keeps_mongo_up user_id session_id interaction_id :
  respects (keeps (fun w => mongo_up (db w)))
           (send_message_prelude user_id session_id interaction_id).
Proof. unfold send_message_prelude. frame. Qed.

Lemma send_message_store_down w user_id message session_id interaction_id :
  mongo_up (db w) = false ->
  forall sent,
    fst (ChatService.send_message user_id message session_id interaction_id w)
    <> Ok sent.
Proof.
  intros Hdown sent. rewrite send_message_after_prelude.
  pose proof (send_message_prelude_keeps_mongo_up user_id session_id
                interaction_id w) as Hk.
  unfold keeps in Hk. rewrite Hdown in Hk.
  destruct (send_message_prelude user_id session_id interaction_id w)
    as [[[sid iid]|e] w1]; simpl in *; [|done].
  pose proof (exchange_store_down w1 sid iid
                (sanitize_message message 10000) Hk) as Hx.
  destruct (ChatService.exchange sid iid (sanitize_message message 10000) w1)
    as [[s|e] w2]; simpl in *; [|done].
  intros [= ->]. by apply (Hx sent).
Qed.

Lemma get_interaction_messages_store_down w interaction_id :
  mongo_up (db w) = false ->
  redis_up (cache w) = false
  \/ kv_get (now w) (r_interactions (cache w)) interaction_id = None ->
  fst (ChatService._get_interaction_messages interaction_id w) = Ok [].
Proof.
  intros Hdown Hmiss. run_coro; try reflexivity; try congruence.
  all: destruct Hmiss; congruence.
Qed.

(** What each operation does while MongoDB does not answer:
    [create_session], [create_interaction] and [delete_interaction] raise
    the driver's error, and so does [get_chat_history] unless it is
    served from a cached snapshot the caller owns; [send_message] never
    succeeds, and without a session id it raises the driver's error
    wrapped as "Failed to send message"; but [get_session], unless it is
    served from a cached snapshot the caller owns, answers [None], and the
    history read of [send_message], unless served from the cache, answers
    the empty history. *)
Theorem store_failure_propagation (w : world) :
  mongo_up (db w) = false ->
  (forall user_id,
     fst (ChatService.create_session user_id w) = Raise STORE_DOWN)
  /\ (forall session_id user_id,
        fst (ChatService.create_interaction session_id user_id w)
        = Raise STORE_DOWN)
  /\ (forall user_id interaction_id,
        fst (ChatService.delete_interaction user_id interaction_id w)
        = Raise STORE_DOWN)
  /\ (forall user_id interaction_id limit,
        redis_up (cache w) = false
        \/ ChatService.owned_interaction
             (kv_get (now w) (r_interactions (cache w)) interaction_id)
             user_id = None ->
        fst (ChatService.get_chat_history user_id interaction_id limit w)
        = Raise STORE_DOWN)
  /\ (forall user_id message session_id interaction_id sent,
        fst (ChatService.send_message user_id message session_id
               interaction_id w) <> Ok sent)
  /\ (forall user_id message interaction_id,
        fst (ChatService.send_message user_id message None interaction_id w)
        = Raise (PlainException
                   ("Failed to send message: " +:+ exn_str STORE_DOWN)))
  /\ (forall session_id user_id,
        redis_up (cache w) = false
        \/ ChatService.owned_session
             (kv_get (now w) (r_sessions (cache w)) session_id) user_id
           = false ->
        fst (ChatService.get_session session_id user_id w) = Ok None)
  /\ (forall interaction_id,
        redis_up (cache w) = false
        \/ kv_get (now w) (r_interactions (cache w)) interaction_id = None ->
        fst (ChatService._get_interaction_messages interaction_id w) = Ok []).
Proof.
  intros Hdown. repeat split.
  - intros. by apply create_session_store_down.
  - intros. by apply create_interaction_store_down.
  - intros. by apply delete_interaction_store_down.
  - intros. by apply get_chat_history_store_down.
  - intros. by apply send_message_store_down.
  - intros user_id message interaction_id.
    rewrite send_message_after_session. unfold ChatService.resolve_session.
    simpl. unfold bind.
    pose proof (create_session_store_down w user_id Hdown) as Hc.
    destruct (ChatService.create_session user_id w) as [r w1].
    simpl in Hc. subst r. reflexivity.
  - intros. by apply get_session_store_down.
  - intros. by apply get_interaction_messages_store_down.
Qed.

(** The hypothesis of [store_failure_propagation] can be met: MongoDB
    goes down while Alice is chatting. *)
Lemma store_failure_propagation_witness :
  let w := set_mongo_up false alice_chatting in
  fst (ChatService.create_session "alice" w) = Raise STORE_DOWN
  /\ fst (ChatService.delete_interaction "alice" "interaction_1" w)
     = Raise STORE_DOWN
  /\ fst (ChatService.get_session "session_0" "alice" w) = Ok None.
Proof.
  intros w.
  destruct (store_failure_propagation w eq_refl)
    as (H1 & _ & H3 & _ & _ & _ & H7 & _).
  split; [apply H1|]. split; [apply H3|].
  apply H7. right. by vm_compute.
Defined.

(** C3 fails on the code. Alice's session is stored in MongoDB and not
    cached. While MongoDB does not answer, [create_session] raises the
    driver's error and its route answers 500, as the claim says; but
    [get_session] reports the stored session as absent, so the session
    route answers 404 and [send_message] in that session is refused as
    "Invalid session_id". Likewise, once the cache entry of Alice's
    interaction has lapsed, [get_chat_history] raises the driver's error
    while the history read of [send_message] answers the empty history,
    although one exchange is stored. *)
Lemma get_session_store_down_reports_absent :
  let w := set_mongo_up false alice_chatting in
  let w' := set_mongo_up false (tick 1800 alice_chatting) in
  map (fun d => (sd_session_id d, sd_user_id d)) (sessions (db w))
  = [("session_0", "alice")]
  /\ fst (ChatService.create_session "alice" w) = Raise STORE_DOWN
  /\ fst (Routes.create_session "alice" w)
     = HTTPException 500 "Failed to create session"
  /\ fst (ChatService.get_session "session_0" "alice" w) = Ok None
  /\ fst (Routes.get_session_info "alice" "session_0" w)
     = HTTPException 404 "Session not found or does not belong to user"
  /\ fst (ChatService.send_message "alice" "hi" (Some "session_0") None w)
     = Raise (ValueError "Invalid session_id")
  /\ map (fun d => (id_interaction_id d, length (id_messages d)))
         (interactions (db w'))
     = [("interaction_1", 1%nat)]
  /\ fst (ChatService.get_chat_history "alice" "interaction_1" 50 w')
     = Raise STORE_DOWN
  /\ fst (ChatService._get_interaction_messages "interaction_1" w') = Ok [].
Proof. by vm_compute. Qed.

(** ** Creating an interaction invalidates the cached session *)

Lemma find_update_first_refined {A} (p q : A -> bool) (f : A -> A) l d :
  (forall x, q x = true -> p x = true) ->
  (forall x, q (f x) = q x) ->
  List.find p l = Some d ->
  q d = true ->
  List.find q (update_first p f l) = Some (f d).
Proof.
  intros Hqp Hf. induction l as [|x l IH]; simpl; [done|].
  destruct (p x) eqn:Hp.
  - intros [= ->] Hq. simpl. by rewrite Hf, Hq.
  - intros Hfind Hq. simpl.
    destruct (q x) eqn:Hqx; [apply Hqp in Hqx; congruence|]. by apply IH.
Qed.

Lemma find_update_first_same {A} (p : A -> bool) (f : A -> A) l d :
  (forall x, p (f x) = p x) ->
  List.find p l = Some d ->
  List.find p (update_first p f l) = Some (f d).
Proof.
  intros Hf Hfind.
  apply find_update_first_refined; auto.
  by apply find_some in Hfind as [_ ?].
Qed.

(** The cache service never raises and touches nothing but Redis. *)
Lemma cache_interaction_effect interaction_id data w :
  exists b c,
    CacheService.cache_interaction interaction_id data w = (Ok b, with_cache c w)
    /\ redis_up c = redis_up (cache w)
    /\ r_sessions c = r_sessions (cache w).
Proof.
  unfold CacheService.cache_interaction, try_except, bind, get_settings,
    redis_setex_interaction, redis_call, ret.
  destruct (redis_up (cache w)) eqn:Hup; simpl.
  - destruct (0 <? REDIS_TTL_INTERACTION (settings w)); simpl;
      eexists _, _; (split; [reflexivity|]); by simpl.
  - exists false, (cache w). by rewrite with_cache_same.
Qed.

Lemma delete_session_effect session_id w :
  exists b c,
    CacheService.delete_session session_id w = (Ok b, with_cache c w)
    /\ redis_up c = redis_up (cache w)
    /\ (redis_up (cache w) = true ->
        r_sessions c = delete session_id (r_sessions (cache w))).
Proof.
  unfold CacheService.delete_session, try_except, bind,
    redis_delete_session, redis_call, ret.
  destruct (redis_up (cache w)) eqn:Hup; simpl.
  - eexists _, _; (split; [reflexivity|]); by simpl.
  - exists false, (cache w). by rewrite with_cache_same.
Qed.

Lemma create_interaction_success session_id user_id w created w1 :
  ChatService.create_interaction session_id user_id w = (Ok created, w1) ->
  let interaction_id := "interaction_" +:+ uuid_stream w (uuid_draws w) in
  ci_interaction_id created = interaction_id
  /\ mongo_up (db w1) = true
  /\ redis_up (cache w1) = redis_up (cache w)
  /\ now w1 = now w
  /\ sessions (db w1)
     = update_first
         (fun d => String.eqb (sd_session_id d) session_id)
         (fun d => {| sd_session_id := sd_session_id d;
                      sd_user_id := sd_user_id d;
                      sd_interaction_ids :=
                        sd_interaction_ids d ++ [interaction_id];
                      sd_created_at := sd_created_at d;
                      sd_last_active := now w;
                      sd_is_active := sd_is_active d |})
         (sessions (db w))
  /\ (redis_up (cache w) = true ->
      r_sessions (cache w1) = delete session_id (r_sessions (cache w))).
Proof.
  unfold ChatService.create_interaction, try_except, generate_interaction_id,
    interaction_document, interactions_insert_one, sessions_update_one.
  unfold bind, ret, generate_uuid, get_current_timestamp, mongo_run, raise.
  cbv beta iota. cbn [mongo_up log_call db with_db with_draws].
  destruct (mongo_up (db w)) eqn:Hup; [|by intros [=]].
  cbn [interactions log_call db with_draws fst snd].
  match goal with |- context [List.find ?p ?l] => destruct (List.find p l) end;
    [by intros [=]|].
  cbn [mongo_up log_call db with_db with_draws with_interactions].
  rewrite Hup.
  match goal with |- context [CacheService.cache_interaction ?i ?s ?w'] =>
    destruct (cache_interaction_effect i s w') as (b1 & c1 & -> & Hu1 & Hs1) end.
  match goal with |- context [CacheService.delete_session ?s ?w'] =>
    destruct (delete_session_effect s w') as (b2 & c2 & -> & Hu2 & Hs2) end.
  intros [= <- <-]. simpl in *.
  repeat split; try done.
  - congruence.
  - intros Hr. rewrite Hs2, Hs1; [done | congruence].
Qed.

(** C7, as the code has it. A [create_interaction] call that succeeds
    while Redis answers
    leaves no cache entry under the session's key; and when the session
    is stored and owned by the caller, the [get_session] call that
    follows is served from MongoDB: its snapshot lists the interaction
    ids the session had, followed by the new one. *)
Theorem create_interaction_invalidates_session
    (w w1 : world) (session_id user_id : string)
    (created : created_interaction) (d : session_doc) :
  redis_up (cache w) = true ->
  ChatService.create_interaction session_id user_id w = (Ok created, w1) ->
  List.find (fun x => String.eqb (sd_session_id x) session_id)
            (sessions (db w)) = Some d ->
  sd_user_id d = user_id ->
  r_sessions (cache w1) !! session_id = None
  /\ exists snapshot,
       fst (ChatService.get_session session_id user_id w1)
       = Ok (Some snapshot)
       /\ ss_session_id snapshot = session_id
       /\ ss_user_id snapshot = user_id
       /\ ss_created_at snapshot = format_timestamp (sd_created_at d)
       /\ ss_interaction_ids snapshot
          = sd_interaction_ids d ++ [ci_interaction_id created].
Proof.
  intros Hup Hcall Hfind Hown.
  destruct (create_interaction_success _ _ _ _ _ Hcall)
    as (Hid & Hmongo1 & Hup1 & Hnow & Hsessions & Hdel).
  rewrite <- Hid in Hsessions.
  set (f := fun x : session_doc =>
         {| sd_session_id := sd_session_id x; sd_user_id := sd_user_id x;
            sd_interaction_ids :=
              sd_interaction_ids x ++ [ci_interaction_id created];
            sd_created_at := sd_created_at x; sd_last_active := now w;
            sd_is_active := sd_is_active x |}) in *.
  assert (Hd : sd_session_id d = session_id).
  { apply find_some in Hfind as [_ Hd]. by apply String.eqb_eq in Hd. }
  rewrite Hup in Hup1.
  assert (Hgone : r_sessions (cache w1) !! session_id = None).
  { rewrite (Hdel Hup). apply lookup_delete_eq. }
  split; [exact Hgone|].
  exists {| ss_session_id := session_id; ss_user_id := user_id;
            ss_interaction_ids :=
              sd_interaction_ids d ++ [ci_interaction_id created];
            ss_created_at := format_timestamp (sd_created_at d);
            ss_last_active := format_timestamp (now w1) |}.
  split; [|done].
  assert (Hfound :
    List.find (fun x => String.eqb (sd_session_id x) session_id
                        && String.eqb (sd_user_id x) user_id)
              (sessions (db w1)) = Some (f d)).
  { rewrite Hsessions. apply find_update_first_refined; try done.
    - intros x Hx. by apply andb_true_iff in Hx as [? _].
    - rewrite Hd, Hown, !String.eqb_refl. done. }
  unfold ChatService.get_session, try_except, bind at 1,
    CacheService.get_session, try_except, redis_get_session, redis_call.
  rewrite Hup1. unfold kv_get. rewrite Hgone. simpl.
  unfold ChatService.get_session_fallback, bind at 1, sessions_find_one,
    mongo_run. simpl. rewrite Hmongo1, Hfound. simpl.
  unfold bind, get_current_timestamp, sessions_update_one, mongo_run. simpl.
  rewrite Hmongo1. simpl.
  unfold CacheService.cache_session, try_except, bind, get_settings,
    redis_setex_session, redis_call, ret. simpl. rewrite Hup1.
  subst f. simpl. rewrite Hd, Hown.
  by destruct (0 <? REDIS_TTL_SESSION (settings w1)).
Qed.

(** The hypotheses of [create_interaction_invalidates_session] can be
    met: Alice's session is cached with one interaction when she opens a
    second one. *)
Lemma create_interaction_invalidates_session_witness :
  let w := alice_session_cached in
  let w1 := snd (ChatService.create_interaction "session_0" "alice" w) in
  (ss_interaction_ids <$> kv_get (now w) (r_sessions (cache w)) "session_0")
  = Some ["interaction_1"]
  /\ r_sessions (cache w1) !! "session_0" = None
  /\ exists snapshot,
       fst (ChatService.get_session "session_0" "alice" w1)
       = Ok (Some snapshot)
       /\ ss_interaction_ids snapshot = ["interaction_1"; "interaction_3"].
Proof.
  intros w w1.
  destruct (create_interaction_invalidates_session w w1 "session_0" "alice"
              {| ci_interaction_id := "interaction_3";
                 ci_session_id := "session_0";
                 ci_created_at := Iso 1000;
                 ci_messages_count := 0 |}
              {| sd_session_id := "session_0"; sd_user_id := "alice";
                 sd_interaction_ids := ["interaction_1"];
                 sd_created_at := 1000; sd_last_active := 1000;
                 sd_is_active := true |})
    as (Hgone & snapshot & Hget & _ & _ & _ & Hids);
    [by vm_compute | by vm_compute | by vm_compute | reflexivity |].
  split; [by vm_compute|]. split; [exact Hgone|].
  exists snapshot. split; [exact Hget | exact Hids].
Defined.

(** C7 as stated fails. Alice's session is cached with one interaction
    when Redis stops answering; [create_interaction] still succeeds (the
    failed cache deletion is logged and its result ignored) and the
    store lists both interactions, but the cached snapshot is left in
    place: once Redis answers again, [get_session] is served from the
    cache and lists the old interaction only. *)
Lemma create_interaction_redis_down_stale_session :
  let w := set_redis_up false alice_session_cached in
  let call := ChatService.create_interaction "session_0" "alice" w in
  let w1 := set_redis_up true (snd call) in
  (exists created,
     fst call = Ok created
     /\ ci_interaction_id created = "interaction_3")
  /\ map (fun d => (sd_session_id d, sd_interaction_ids d))
         (sessions (db w1))
     = [("session_0", ["interaction_1"; "interaction_3"])]
  /\ (ss_interaction_ids <$> kv_get (now w1) (r_sessions (cache w1))
                               "session_0")
     = Some ["interaction_1"]
  /\ exists snapshot,
       fst (ChatService.get_session "session_0" "alice" w1)
       = Ok (Some snapshot)
       /\ ss_interaction_ids snapshot = ["interaction_1"].
Proof.
  intros w call w1. split; [|split; [|split]].
  - eexists. split; by vm_compute.
  - by vm_compute.
  - by vm_compute.
  - eexists. split; by vm_compute.
Qed.

(** ** Coherence of the session cache *)

Section Coherent.
Context (stream : nat -> string).
Implicit Types (stored : list session_doc)
  (cached : gmap string (entry session_snapshot)) (draws : nat).

Lemma coherent_draws_mono stored cached draws draws' :
  (draws <= draws')%nat ->
  coherent stored cached stream draws ->
  coherent stored cached stream draws'.
Proof.
  intros Hle (Hnd & Hag & Hfresh & Hinj). repeat split; try done.
  - by apply Hag.
  - by eapply Hag.
  - by eapply Hag.
  - intros sid Hsid. destruct (Hfresh sid Hsid) as (k & Hk & ->).
    exists k. split; [lia | done].
Qed.

(** A cache whose entries all come, value for value, from a coherent one
    is coherent: entries may have gone or have a new time to live. *)
Lemma coherent_cache_sub stored cached cached' draws :
  (forall sid e', cached' !! sid = Some e' ->
     exists e, cached !! sid = Some e /\ e_val e' = e_val e) ->
  coherent stored cached stream draws ->
  coherent stored cached' stream draws.
Proof.
  intros Hsub (Hnd & Hag & Hfresh & Hinj). split; [done|]. split; [|split].
  - intros sid e' He'. destruct (Hsub sid e' He') as (e & He & ->).
    by apply Hag.
  - intros sid [[e' He']|Hin]; apply Hfresh; [|by right].
    destruct (Hsub sid e' He') as (e & He & _). left. by exists e.
  - done.
Qed.

Lemma coherent_cache_expire stored cached draws t k ttl :
  coherent stored cached stream draws ->
  coherent stored (kv_expire t cached k ttl) stream draws.
Proof.
  apply coherent_cache_sub. intros sid e'. unfold kv_expire.
  destruct (cached !! k) as [e|] eqn:Ek; [|by eauto].
  destruct (live t e); [|by eauto].
  destruct (decide (k = sid)) as [->|Hne].
  - rewrite lookup_insert_eq. intros [= <-]. by exists e.
  - rewrite lookup_insert_ne by done. eauto.
Qed.

Lemma coherent_cache_delete stored cached draws k :
  coherent stored cached stream draws ->
  coherent stored (kv_delete cached k) stream draws.
Proof.
  apply coherent_cache_sub. intros sid e'. unfold kv_delete.
  destruct (decide (k = sid)) as [->|Hne].
  - by rewrite lookup_delete_eq.
  - rewrite lookup_delete_ne by done. eauto.
Qed.

Lemma coherent_cache_setex stored cached draws t sid ttl snapshot :
  ss_session_id snapshot = sid ->
  (forall d, In d stored -> sd_session_id d = sid -> agrees snapshot d) ->
  (exists k, (k < draws)%nat /\ sid = "session_" +:+ stream k) ->
  coherent stored cached stream draws ->
  coherent stored (kv_setex t cached sid ttl snapshot) stream draws.
Proof.
  intros Hsid Hagrees Hdrawn (Hnd & Hag & Hfresh & Hinj).
  unfold kv_setex. split; [done|]. split; [|split; [|done]].
  - intros sid' e'. destruct (decide (sid = sid')) as [->|Hne].
    + rewrite lookup_insert_eq. intros [= <-]. simpl. by split.
    + rewrite lookup_insert_ne by done. apply Hag.
  - intros sid' [[e' He']|Hin]; [|by apply Hfresh; right].
    destruct (decide (sid = sid')) as [->|Hne]; [done|].
    rewrite lookup_insert_ne in He' by done. apply Hfresh. left. by exists e'.
Qed.

Lemma update_first_ids (p : session_doc -> bool) f stored :
  (forall d, sd_session_id (f d) = sd_session_id d) ->
  map sd_session_id (update_first p f stored) = map sd_session_id stored.
Proof.
  intros Hf. induction stored as [|x l IH]; simpl; [done|].
  destruct (p x); simpl; [by rewrite Hf | by rewrite IH].
Qed.

Lemma update_first_In (p : session_doc -> bool) f stored d' :
  In d' (update_first p f stored) ->
  In d' stored \/ exists d, In d stored /\ d' = f d.
Proof.
  induction stored as [|x l IH]; simpl; [done|].
  destruct (p x); simpl.
  - intros [<-|Hin]; [right; by eauto | left; by right].
  - intros [<-|Hin]; [left; by left|].
    destruct (IH Hin) as [?|(d & ? & ->)]; [left; by right | right; by eauto].
Qed.

Lemma coherent_store_update stored cached draws p f :
  (forall d, sd_session_id (f d) = sd_session_id d) ->
  (forall d, sd_user_id (f d) = sd_user_id d) ->
  (forall d, sd_created_at (f d) = sd_created_at d) ->
  coherent stored cached stream draws ->
  coherent (update_first p f stored) cached stream draws.
Proof.
  intros Hid Hu Hc (Hnd & Hag & Hfresh & Hinj).
  rewrite <- (update_first_ids p f stored Hid) in Hnd.
  split; [done|]. split; [|split; [|done]].
  - intros sid e He. split; [by eapply Hag|]. intros d' Hin Hsid.
    destruct (update_first_In _ _ _ _ Hin) as [?|(d & Hd & ->)].
    + by eapply Hag.
    + rewrite Hid in Hsid.
      destruct (Hag sid e He) as [_ Hagr]. specialize (Hagr d Hd Hsid).
      unfold agrees in *. by rewrite Hu, Hc.
  - intros sid Hsid. apply Hfresh.
    by rewrite (update_first_ids p f stored Hid) in Hsid.
Qed.

Lemma remove_first_In (p : session_doc -> bool) stored d :
  In d (remove_first p stored) -> In d stored.
Proof.
  induction stored as [|x l IH]; simpl; [done|].
  destruct (p x); simpl; [by right|]. intros [?|?]; [by left | right; auto].
Qed.

Lemma remove_first_NoDup (p : session_doc -> bool) stored :
  NoDup (map sd_session_id stored) ->
  NoDup (map sd_session_id (remove_first p stored)).
Proof.
  induction stored as [|x l IH]; simpl; [done|].
  intros Hnd. apply NoDup_cons in Hnd as [Hx Hl].
  destruct (p x); simpl; [done|]. apply NoDup_cons. split; [|auto].
  intros Hin. apply Hx. apply list_elem_of_In, in_map_iff in Hin
    as (d & Hd & Hin).
  apply list_elem_of_In, in_map_iff. exists d. split; [done|].
  by eapply remove_first_In.
Qed.

Lemma coherent_store_remove stored cached draws p :
  coherent stored cached stream draws ->
  coherent (remove_first p stored) cached stream draws.
Proof.
  intros (Hnd & Hag & Hfresh & Hinj).
  split; [by apply remove_first_NoDup|]. split; [|split; [|done]].
  - intros sid e He. split; [by eapply Hag|]. intros d Hin Hsid.
    eapply Hag; [done | by eapply remove_first_In | done].
  - intros sid [?|Hin]; apply Hfresh; [by left|]. right.
    apply in_map_iff in Hin as (d & Hd & Hin). apply in_map_iff.
    exists d. split; [done | by eapply remove_first_In].
Qed.

(** A document under an id built from the UUID drawn last is new to the
    collection and to the cache. *)
Lemma coherent_store_insert stored cached draws doc :
  sd_session_id doc = "session_" +:+ stream draws ->
  coherent stored cached stream draws ->
  coherent (stored ++ [doc]) cached stream (S draws)
  /\ cached !! sd_session_id doc = None.
Proof.
  intros Hdoc (Hnd & Hag & Hfresh & Hinj).
  assert (Hnew : forall sid,
            is_Some (cached !! sid) \/ In sid (map sd_session_id stored) ->
            sid <> sd_session_id doc).
  { intros sid Hsid ->. destruct (Hfresh _ Hsid) as (k & Hk & Heq).
    rewrite Hdoc in Heq. simpl in Heq. simplify_eq.
    match goal with H : stream _ = stream _ |- _ => apply Hinj in H end. lia. }
  split.
  - split; [|split; [|split; [|done]]].
    + rewrite map_app. simpl. apply NoDup_app. split; [done|]. split.
      * intros sid Hin Hsid. apply list_elem_of_In in Hin.
        apply list_elem_of_In in Hsid as [<-|[]].
        by apply (Hnew (sd_session_id doc)); [right|].
      * apply NoDup_singleton.
    + intros sid e He. split; [by eapply Hag|]. intros d Hin Hsid.
      apply in_app_iff in Hin as [Hin|[<-|[]]]; [by eapply Hag|].
      exfalso. apply (Hnew sid); [left; by exists e | done].
    + intros sid [Hc|Hin].
      * destruct (Hfresh sid (or_introl Hc)) as (k & Hk & ->).
        exists k. split; [lia | done].
      * rewrite map_app in Hin. apply in_app_iff in Hin as [Hin|[<-|[]]].
        -- destruct (Hfresh sid (or_intror Hin)) as (k & Hk & ->).
           exists k. split; [lia | done].
        -- exists draws. split; [lia | done].
  - destruct (cached !! sd_session_id doc) as [e|] eqn:E; [|done].
    exfalso. apply (Hnew (sd_session_id doc)); [left; by exists e | done].
Qed.

End Coherent.

(** ** Every operation keeps the session cache coherent *)

Lemma stable_redis_call {A} (f : Z -> redis -> result A * redis) :
  (forall t c stored stream draws,
     coherent stored (r_sessions c) stream draws ->
     coherent stored (r_sessions (snd (f t c))) stream draws) ->
  stable session_cache_coherent (redis_call f).
Proof.
  intros Hf w Hw. unfold redis_call, session_cache_coherent in *.
  destruct (redis_up (cache w)); [|done].
  specialize (Hf (now w) (cache w) _ _ _ Hw).
  by destruct (f (now w) (cache w)).
Qed.

Lemma stable_mongo_run {A} (c : mongo_call) (f : mongo -> result A * mongo) :
  (forall d cached stream draws,
     coherent (sessions d) cached stream draws ->
     coherent (sessions (snd (f d))) cached stream draws) ->
  stable session_cache_coherent (mongo_run c f).
Proof.
  intros Hf w Hw. unfold mongo_run, session_cache_coherent in *.
  destruct (mongo_up (log_call c (db w))); [|done].
  specialize (Hf (log_call c (db w)) _ _ _ Hw).
  by destruct (f (log_call c (db w))).
Qed.

Lemma stable_generate_uuid : stable session_cache_coherent generate_uuid.
Proof.
  intros w Hw. unfold session_cache_coherent in *. simpl.
  eapply coherent_draws_mono; [|exact Hw]. lia.
Qed.

Lemma stable_generate_response messages :
  stable session_cache_coherent (AIService.generate_response messages).
Proof.
  intros w Hw. unfold AIService.generate_response.
  by destruct (hf_client w messages).
Qed.

(** What a Redis or MongoDB call does to the sessions, case by case. *)
Ltac coherent_leaf :=
  intros; simpl; repeat case_match; simplify_eq/=;
  first [ done
        | by apply coherent_cache_expire
        | by apply coherent_cache_delete
        | by apply coherent_store_remove
        | by apply coherent_store_update ].

Ltac stable_step :=
  lazymatch goal with
  | |- stable _ (bind _ _) => apply stable_bind; [| intros ?]
  | |- stable _ (try_except _ _) => apply stable_try_except; [| intros ?]
  | |- stable _ (ret _) => apply stable_ret
  | |- stable _ (raise _) => apply stable_raise
  | |- stable _ get_current_timestamp => apply stable_get_current_timestamp
  | |- stable _ get_settings => apply stable_get_settings
  | |- stable _ generate_uuid => apply stable_generate_uuid
  | |- stable _ (AIService.generate_response _) =>
      apply stable_generate_response
  | |- stable _ (redis_call _) => apply stable_redis_call; coherent_leaf
  | |- stable _ (mongo_run _ _) => apply stable_mongo_run; coherent_leaf
  | |- stable _ (match ?x with _ => _ end) => destruct x
  | |- stable _ (let _ := _ in _) => cbv zeta
  end.

Ltac stable_coro := autounfold with coro; repeat stable_step.

Lemma stable_check_rate_limit user_id :
  stable session_cache_coherent (CacheService.check_rate_limit user_id).
Proof. stable_coro. Qed.

Lemma stable_get_chat_history user_id interaction_id limit :
  stable session_cache_coherent
         (ChatService.get_chat_history user_id interaction_id limit).
Proof. stable_coro. Qed.

Lemma stable_delete_interaction user_id interaction_id :
  stable session_cache_coherent
         (ChatService.delete_interaction user_id interaction_id).
Proof. stable_coro. Qed.

Lemma stable_create_interaction session_id user_id :
  stable session_cache_coherent
         (ChatService.create_interaction session_id user_id).
Proof. stable_coro. Qed.

Lemma cache_session_effect session_id data w :
  exists b c,
    CacheService.cache_session session_id data w = (Ok b, with_cache c w)
    /\ (r_sessions c = r_sessions (cache w)
        \/ r_sessions c
           = kv_setex (now w) (r_sessions (cache w)) session_id
               (REDIS_TTL_SESSION (settings w)) data).
Proof.
  unfold CacheService.cache_session, try_except, bind, get_settings,
    redis_setex_session, redis_call, ret.
  destruct (redis_up (cache w)) eqn:Hup; simpl.
  - destruct (0 <? REDIS_TTL_SESSION (settings w)); simpl;
      eexists _, _; (split; [reflexivity|]); simpl; auto.
  - exists false, (cache w). rewrite with_cache_same. auto.
Qed.

Lemma stable_create_session user_id :
  stable session_cache_coherent (ChatService.create_session user_id).
Proof.
  intros w Hw. unfold session_cache_coherent in *.
  set (doc := {| sd_session_id := "session_" +:+ uuid_stream w (uuid_draws w);
                 sd_user_id := user_id; sd_interaction_ids := [];
                 sd_created_at := now w; sd_last_active := now w;
                 sd_is_active := true |}).
  destruct (coherent_store_insert (uuid_stream w) _ _ _ doc eq_refl Hw)
    as [Hins Hnone].
  assert (Hmono : coherent (sessions (db w)) (r_sessions (cache w))
                    (uuid_stream w) (S (uuid_draws w))).
  { eapply coherent_draws_mono; [|exact Hw]. lia. }
  unfold ChatService.create_session, try_except, generate_session_id,
    session_document, sessions_insert_one.
  unfold bind, ret, generate_uuid, get_current_timestamp, mongo_run, raise.
  cbv beta iota. cbn [mongo_up log_call db with_db with_draws].
  destruct (mongo_up (db w)); [|exact Hmono].
  cbn [sessions log_call db with_draws fst snd].
  match goal with |- context [List.find ?p ?l] => destruct (List.find p l) end;
    [exact Hmono|].
  match goal with |- context [CacheService.cache_session ?i ?s ?w'] =>
    destruct (cache_session_effect i s w') as (b & c & -> & [Hc|Hc]) end;
    simpl; rewrite Hc; simpl; [exact Hins|].
  apply coherent_cache_setex; [done | | | exact Hins].
  - intros d Hin Hsid. apply in_app_iff in Hin as [Hin|[<-|[]]]; [|done].
    exfalso. destruct Hw as (_ & _ & Hfresh & Hinj).
    destruct (Hfresh (sd_session_id d)) as (k & Hk & Heq).
    { right. by apply in_map. }
    rewrite Hsid in Heq. simpl in Heq. simplify_eq.
    match goal with H : uuid_stream _ _ = uuid_stream _ _ |- _ =>
      apply Hinj in H end. lia.
  - exists (uuid_draws w). split; [lia | done].
Qed.

Lemma sessions_unique stored d d' :
  NoDup (map sd_session_id stored) ->
  In d stored -> In d' stored ->
  sd_session_id d' = sd_session_id d ->
  d' = d.
Proof.
  intros Hnd Hd Hd' Hsid.
  induction stored as [|x l IH]; [done|].
  simpl in Hnd. apply NoDup_cons in Hnd as [Hx Hl].
  assert (Hmem : forall y, In y l -> sd_session_id y ∈ map sd_session_id l).
  { intros y Hy. apply list_elem_of_In, in_map, Hy. }
  destruct Hd as [->|Hd], Hd' as [->|Hd']; try done.
  - exfalso. apply Hx. rewrite <- Hsid. by apply Hmem.
  - exfalso. apply Hx. rewrite Hsid. by apply Hmem.
  - by apply IH.
Qed.

Lemma find_sessions_unique stored (p : session_doc -> bool) d d' :
  NoDup (map sd_session_id stored) ->
  List.find p stored = Some d ->
  In d' stored ->
  sd_session_id d' = sd_session_id d ->
  d' = d.
Proof.
  intros Hnd Hfind Hin Hsid. apply find_some in Hfind as [Hd _].
  by eapply sessions_unique.
Qed.

Lemma stable_get_session_fallback session_id user_id :
  stable session_cache_coherent
         (ChatService.get_session_fallback session_id user_id).
Proof.
  intros w Hw. unfold session_cache_coherent in *.
  unfold ChatService.get_session_fallback, sessions_find_one,
    sessions_update_one.
  unfold bind, ret, get_current_timestamp, mongo_run.
  cbv beta iota. cbn [mongo_up log_call db with_db sessions fst snd].
  destruct (mongo_up (db w)) eqn:Hup; [|exact Hw].
  match goal with |- context [List.find ?p ?l] =>
    destruct (List.find p l) as [s|] eqn:Hfound end; [|exact Hw].
  cbv beta iota. cbn [mongo_up log_call db with_db sessions fst snd].
  rewrite Hup. cbv beta iota.
  match goal with |- context [update_first ?p0 ?f0 _] =>
    set (p := p0); set (f := f0) end.
  assert (Hupd : coherent (update_first p f (sessions (db w)))
                   (r_sessions (cache w)) (uuid_stream w) (uuid_draws w))
    by (by apply coherent_store_update).
  match goal with |- context [CacheService.cache_session ?i ?sn ?w'] =>
    destruct (cache_session_effect i sn w') as (b & c & -> & [Hc|Hc]) end;
    simpl; rewrite Hc; simpl; [exact Hupd|].
  pose proof Hfound as Hfound'. apply find_some in Hfound' as [Hin Hp].
  apply andb_true_iff in Hp as [Hsid Hu].
  apply String.eqb_eq in Hsid. apply String.eqb_eq in Hu.
  apply coherent_cache_setex; [done | | | exact Hupd].
  - intros d' Hin' Hsid'.
    assert (Hd0 : forall d0, In d0 (sessions (db w)) ->
              sd_session_id d0 = session_id -> d0 = s).
    { intros d0 Hd0 Hs0. eapply find_sessions_unique;
        [apply Hw | exact Hfound | exact Hd0 | congruence]. }
    apply update_first_In in Hin' as [Hin'|(d0 & Hin0 & ->)].
    + rewrite (Hd0 d' Hin' Hsid'). by split.
    + subst f. simpl in *. rewrite (Hd0 d0 Hin0 Hsid'). by split.
  - destruct Hw as (_ & _ & Hfresh & _). apply Hfresh. right.
    rewrite <- Hsid. by apply in_map.
Qed.

Lemma stable_get_session session_id user_id :
  stable session_cache_coherent (ChatService.get_session session_id user_id).
Proof.
  unfold ChatService.get_session.
  apply stable_try_except; [|intros ?; apply stable_ret].
  apply stable_bind; [stable_coro|]. intros cached.
  destruct (ChatService.owned_session cached user_id).
  - stable_coro.
  - apply stable_get_session_fallback.
Qed.

Lemma stable_send_message user_id message session_id interaction_id :
  stable session_cache_coherent
         (ChatService.send_message user_id message session_id interaction_id).
Proof.
  unfold ChatService.send_message.
  apply stable_try_except; [|intros e; destruct (is_ValueError e);
                                apply stable_raise].
  cbv zeta. apply stable_bind.
  { unfold ChatService.resolve_session. destruct (nonempty session_id).
    - apply stable_bind; [apply stable_get_session|].
      intros [?|]; [apply stable_ret | apply stable_raise].
    - apply stable_bind; [apply stable_create_session|].
      intros ?. apply stable_ret. }
  intros sid. apply stable_bind; [stable_coro|]. intros _.
  apply stable_bind.
  { unfold ChatService.resolve_interaction. destruct (nonempty interaction_id).
    - apply stable_ret.
    - apply stable_bind; [apply stable_create_interaction|].
      intros ?. apply stable_ret. }
  intros iid. stable_coro.
Qed.

Lemma stable_delete_all user_id interaction_ids :
  stable session_cache_coherent (Routes.delete_all user_id interaction_ids).
Proof.
  induction interaction_ids as [|i l IH]; simpl; [apply stable_ret|].
  apply stable_bind; [|intros _; exact IH].
  apply stable_try_except; [|intros ?; apply stable_ret].
  apply stable_bind; [apply stable_delete_interaction|].
  intros ?. apply stable_ret.
Qed.

Lemma stable_delete_session user_id session_id w :
  session_cache_coherent w ->
  session_cache_coherent (snd (Routes.delete_session user_id session_id w)).
Proof.
  intros Hw. unfold Routes.delete_session.
  pose proof (stable_get_session session_id user_id w Hw) as H1.
  destruct (ChatService.get_session session_id user_id w)
    as [[[session|]|e] w1]; simpl in *; try done.
  assert (stable session_cache_coherent
            (Routes.delete_all user_id (ss_interaction_ids session) ;;;
             sessions_delete_one
               (fun d => String.eqb (sd_session_id d) session_id) ;;;
             CacheService.delete_session session_id)) as Hrest.
  { apply stable_bind; [apply stable_delete_all|]. intros _. stable_coro. }
  specialize (Hrest w1 H1).
  by destruct ((Routes.delete_all user_id (ss_interaction_ids session) ;;;
                sessions_delete_one _ ;;; CacheService.delete_session _) w1)
    as [[?|?] ?].
Qed.

Lemma initial_coherent w : initial w -> session_cache_coherent w.
Proof.
  intros (Hs & Hc & Hinj). unfold session_cache_coherent, coherent.
  rewrite Hs, Hc. simpl. split; [constructor|]. split; [|split; [|done]].
  - intros sid e He. by rewrite lookup_empty in He.
  - intros sid [[e He]|[]]. by rewrite lookup_empty in He.
Qed.

Lemma step_coherent w w' :
  step w w' -> session_cache_coherent w -> session_cache_coherent w'.
Proof.
  intros Hstep Hw. destruct Hstep.
  - by apply stable_create_session.
  - by apply stable_get_session.
  - by apply stable_create_interaction.
  - by apply stable_send_message.
  - by apply stable_get_chat_history.
  - by apply stable_delete_interaction.
  - by apply stable_delete_session.
  - by apply stable_check_rate_limit.
  - exact Hw.
  - exact Hw.
  - exact Hw.
  - exact Hw.
Qed.

Lemma reachable_coherent w : reachable w -> session_cache_coherent w.
Proof.
  induction 1 as [w Hinit|w w' _ IH Hstep].
  - by apply initial_coherent.
  - by eapply step_coherent.
Qed.

Lemma find_session_stored stored session_id user_id d :
  NoDup (map sd_session_id stored) ->
  In d stored ->
  sd_session_id d = session_id ->
  sd_user_id d = user_id ->
  List.find (fun x => String.eqb (sd_session_id x) session_id
                      && String.eqb (sd_user_id x) user_id) stored
  = Some d.
Proof.
  intros Hnd Hin Hsid Hu.
  match goal with |- List.find ?p _ = _ => set (p0 := p) end.
  destruct (List.find p0 stored) as [d'|] eqn:Hfind.
  - apply find_some in Hfind as [Hin' Hp]. subst p0. simpl in Hp.
    apply andb_true_iff in Hp as [Hp _]. apply String.eqb_eq in Hp.
    f_equal. eapply sessions_unique; eauto. congruence.
  - exfalso. pose proof (find_none _ _ Hfind d Hin) as Hp. subst p0.
    simpl in Hp. by rewrite Hsid, Hu, !String.eqb_refl in Hp.
Qed.

Lemma update_session_activity_effect session_id w :
  exists b c,
    CacheService.update_session_activity session_id w = (Ok b, with_cache c w).
Proof.
  unfold CacheService.update_session_activity, try_except, bind, get_settings,
    redis_exists_session, redis_expire_session, redis_call, ret.
  destruct w as [? ? ? ? c ? ? ?]. simpl.
  destruct (redis_up c); simpl; [|by eexists _, _].
  destruct (kv_exists _ _ _); simpl; [|by eexists _, _].
  destruct (redis_up c); simpl; by eexists _, _.
Qed.


(** A session lookup that hits the cache under the caller's name answers
    with the cached snapshot. *)
Lemma get_session_from_cache session_id user_id w c :
  redis_up (cache w) = true ->
  kv_get (now w) (r_sessions (cache w)) session_id = Some c ->
  ss_user_id c = user_id ->
  fst (ChatService.get_session session_id user_id w) = Ok (Some c).
Proof.
  intros Hredis Hhit Hown.
  assert (Hget : CacheService.get_session session_id w = (Ok (Some c), w)).
  { unfold CacheService.get_session, try_except, redis_get_session,
      redis_call, ret. rewrite Hredis, Hhit.
    by destruct w as [? ? ? ? [] ? ? ?]. }
  unfold ChatService.get_session, try_except, bind at 1. rewrite Hget.
  cbn [ChatService.owned_session]. rewrite Hown, String.eqb_refl.
  unfold bind.
  destruct (update_session_activity_effect session_id w) as (b & c' & ->).
  done.
Qed.

Lemma boot_initial : initial boot.
Proof.
  repeat split. intros j k Hjk. by apply (inj pretty) in Hjk.
Qed.

Lemma alice_session_cached_reachable : reachable alice_session_cached.
Proof.
  eapply reachable_step;
    [|apply (step_get_session "session_0" "alice" alice_chatting)].
  eapply reachable_step;
    [|apply (step_send_message "alice" "hello" None None boot)].
  apply reachable_initial, boot_initial.
Qed.




(** * More of the code *)

(** * Tokens and the authentication dependencies *)




(** A token of one kind is never accepted where the other kind is asked
    for, whenever and under whatever settings it is presented. *)
Theorem token_kinds_do_not_mix w w' user_id email :
  Middleware.get_current_user w'
    (AuthService.create_refresh_token w user_id email)
  = Denied 401 "Invalid or expired access token"
  /\ Middleware.verify_refresh_token w'
       (AuthService.create_access_token w user_id email)
     = Denied 401 "Invalid or expired refresh token".
Proof.
  unfold Middleware.get_current_user, Middleware.verify_refresh_token,
    AuthService.verify_access_token, AuthService.verify_refresh_token,
    AuthService.verify_token, AuthService.decode_token,
    AuthService.jwt_decode, AuthService.create_refresh_token,
    AuthService.create_access_token, AuthService.jwt_encode.
  split; (destruct (bool_decide _); [|done]); simpl; by destruct (_ <? _).
Qed.

(** A token that is malformed or signed under another key than the
    configured one is answered with 401 by both dependencies; no
    exception escapes them. *)
Theorem forged_token_denied w t :
  match t with
  | AuthService.Jws claims sig =>
      sig <> AuthService.Hmac (JWT_SECRET_KEY (settings w)) claims
  | AuthService.Malformed _ => True
  end ->
  Middleware.get_current_user w t
  = Denied 401 "Invalid or expired access token"
  /\ Middleware.verify_refresh_token w t
     = Denied 401 "Invalid or expired refresh token".
Proof.
  intros Ht.
  unfold Middleware.get_current_user, Middleware.verify_refresh_token,
    AuthService.verify_access_token, AuthService.verify_refresh_token,
    AuthService.verify_token, AuthService.decode_token,
    AuthService.jwt_decode.
  destruct t as [claims sig|raw]; [|done].
  by rewrite bool_decide_eq_false_2.
Qed.

Lemma forged_token_denied_witness :
  let t := AuthService.jwt_encode
             {| AuthService.p_user_id := "alice";
                AuthService.p_email := "alice@example.org";
                AuthService.p_exp := 5000;
                AuthService.p_type := "access" |} "guess" in
  Middleware.get_current_user boot t
  = Denied 401 "Invalid or expired access token"
  /\ Middleware.verify_refresh_token boot t
     = Denied 401 "Invalid or expired refresh token".
Proof.
  intros t. apply (forged_token_denied boot t). by vm_compute.
Defined.

(** * Identifiers *)

Lemma prefix_append p s : String.prefix p (p +:+ s) = true.
Proof.
  induction p as [|c p IH]; simpl; [by destruct s|].
  destruct (ascii_dec c c); [exact IH | done].
Qed.

Lemma drop_chars_append p s :
  drop_chars (String.length p) (p +:+ s) = s.
Proof. induction p as [|c p IH]; simpl; [by destruct s | exact IH]. Qed.

Lemma append_assoc' (a b c : string) : (a +:+ b) +:+ c = a +:+ b +:+ c.
Proof.
  induction a as [|x a IH]; [reflexivity|].
  change (String x ((a +:+ b) +:+ c) = String x (a +:+ b +:+ c)).
  by f_equal.
Qed.

Lemma length_append' (a b : string) :
  String.length (a +:+ b) = (String.length a + String.length b)%nat.
Proof.
  induction a as [|x a IH]; [reflexivity|].
  change (S (String.length (a +:+ b))
          = S (String.length a + String.length b)).
  by f_equal.
Qed.

Lemma prefix_drop_chars p s :
  String.prefix p s = true -> s = p +:+ drop_chars (String.length p) s.
Proof.
  revert s. induction p as [|c p IH]; intros s; simpl; [by destruct s|].
  destruct s as [|c' s]; [done|]. cbn [String.prefix].
  destruct (ascii_dec c c') as [->|]; [|done].
  intros H. change (String c' s = String c' (p +:+ drop_chars (String.length p) s)).
  f_equal. by apply IH.
Qed.

(** An id built from a prefix and a UUID gives the UUID back. *)
Theorem extract_uuid_round_trip prefix uuid :
  extract_uuid_from_prefixed_id (prefix +:+ "_" +:+ uuid) prefix = Some uuid.
Proof.
  unfold extract_uuid_from_prefixed_id.
  rewrite <- append_assoc', prefix_append. f_equal.
  replace (String.length prefix + 1)%nat
    with (String.length (prefix +:+ "_"))
    by (rewrite length_append'; reflexivity).
  apply drop_chars_append.
Qed.

(** Whatever is extracted under a prefix, the id was that prefix, an
    underscore and the extracted string. *)
Theorem extract_uuid_inverse prefixed_id prefix uuid :
  extract_uuid_from_prefixed_id prefixed_id prefix = Some uuid ->
  prefixed_id = prefix +:+ "_" +:+ uuid.
Proof.
  unfold extract_uuid_from_prefixed_id.
  destruct (String.prefix (prefix +:+ "_") prefixed_id) eqn:Hp; [|done].
  intros [= <-]. apply prefix_drop_chars in Hp.
  rewrite length_append' in Hp.
  change (String.length "_") with 1%nat in Hp.
  by rewrite append_assoc' in Hp.
Qed.

Lemma extract_uuid_inverse_witness :
  "interaction_7" = "interaction" +:+ "_" +:+ "7".
Proof. apply (extract_uuid_inverse "interaction_7" "interaction" "7").
  reflexivity.
Defined.

(** Each generator's id gives back, under its own prefix, the UUID that
    was drawn for it, and nothing under the prefixes of the other two. *)
Theorem generated_ids_carry_their_uuid w :
  let uuid := uuid_stream w (uuid_draws w) in
  (exists sid, fst (generate_session_id w) = Ok sid
     /\ extract_uuid_from_prefixed_id sid "session" = Some uuid
     /\ extract_uuid_from_prefixed_id sid "interaction" = None
     /\ extract_uuid_from_prefixed_id sid "message" = None)
  /\ (exists iid, fst (generate_interaction_id w) = Ok iid
     /\ extract_uuid_from_prefixed_id iid "interaction" = Some uuid
     /\ extract_uuid_from_prefixed_id iid "session" = None
     /\ extract_uuid_from_prefixed_id iid "message" = None)
  /\ (exists mid, fst (generate_message_id w) = Ok mid
     /\ extract_uuid_from_prefixed_id mid "message" = Some uuid
     /\ extract_uuid_from_prefixed_id mid "session" = None
     /\ extract_uuid_from_prefixed_id mid "interaction" = None).
Proof.
  intros uuid. repeat split.
  - exists ("session" +:+ "_" +:+ uuid).
    split; [reflexivity|]. split; [apply extract_uuid_round_trip | done].
  - exists ("interaction" +:+ "_" +:+ uuid).
    split; [reflexivity|]. split; [apply extract_uuid_round_trip | done].
  - exists ("message" +:+ "_" +:+ uuid).
    split; [reflexivity|]. split; [apply extract_uuid_round_trip | done].
Qed.

(** * Message sanitising *)

Lemma length_substring_0 n s :
  String.length (substring 0 n s) = Nat.min n (String.length s).
Proof.
  revert s. induction n as [|n IH]; intros [|c s]; simpl; try done.
  by rewrite IH.
Qed.

Lemma lstrip_head s :
  match lstrip s with
  | String c _ => is_space c = false
  | EmptyString => True
  end.
Proof.
  induction s as [|c s IH]; simpl; [done|].
  destruct (is_space c) eqn:Hc; [exact IH | exact Hc].
Qed.

Lemma rstrip_head c s :
  is_space c = false -> exists r, rstrip (String c s) = String c r.
Proof.
  intros Hc. simpl. rewrite Hc. destruct (rstrip s); eauto.
Qed.

Lemma strip_head s :
  match strip s with
  | String c _ => is_space c = false
  | EmptyString => True
  end.
Proof.
  unfold strip. pose proof (lstrip_head s) as H.
  destruct (lstrip s) as [|c r]; [done|].
  destruct (rstrip_head c r H) as [r' ->]. exact H.
Qed.

(** A sanitised message is never longer than the maximum. *)
Theorem sanitize_message_length message max_length :
  0 <= max_length ->
  Z.of_nat (String.length (sanitize_message message max_length))
  <= max_length.
Proof.
  intros Hmax. unfold sanitize_message. cbv zeta.
  destruct (Z.ltb_spec max_length
              (Z.of_nat (String.length (strip message)))); [|done].
  rewrite length_substring_0. lia.
Qed.

Lemma sanitize_message_length_witness :
  Z.of_nat (String.length (sanitize_message "  hello world  " 5)) <= 5.
Proof. apply sanitize_message_length. lia. Defined.

(** A sanitised message never starts with white space. *)
Theorem sanitize_message_head message max_length :
  0 <= max_length ->
  match sanitize_message message max_length with
  | String c _ => is_space c = false
  | EmptyString => True
  end.
Proof.
  intros _. unfold sanitize_message. cbv zeta.
  pose proof (strip_head message) as H.
  destruct (_ <? _); [|exact H].
  destruct (strip message) as [|c r]; destruct (Z.to_nat max_length);
    simpl; done.
Qed.

Lemma sanitize_message_head_witness :
  match sanitize_message "  hello world  " 5 with
  | String c _ => is_space c = false
  | EmptyString => True
  end.
Proof. apply sanitize_message_head. lia. Defined.

(** The message is stripped before it is cut, not after: a cut that
    falls behind a blank leaves a message that ends in white space, and
    sanitising it again changes it. *)
Theorem sanitize_message_cut_leaves_blank :
  sanitize_message "ab cd" 3 = "ab "
  /\ sanitize_message (sanitize_message "ab cd" 3) 3 = "ab".
Proof. split; reflexivity. Qed.

(** * The conversation handed to the model *)

Lemma fold_left_app_flat_map {A B} (f : A -> list B) (l : list A) acc :
  fold_left (fun formatted x => formatted ++ f x) l acc
  = acc ++ flat_map f l.
Proof.
  revert acc. induction l as [|x l IH]; intros acc; simpl.
  - by rewrite app_nil_r.
  - rewrite IH. by rewrite <- app_assoc.
Qed.

(** The formatter yields, for every earlier exchange in order, the
    user's turn followed by the assistant's, and the current message as
    the user's last turn: twice as many turns as exchanges, plus one. *)
Theorem format_conversation_history_shape messages_history current_message :
  let formatted := AIService.format_conversation_history messages_history
                     current_message in
  formatted
  = flat_map (fun msg => [Turn RoleUser (get_user_message msg);
                          Turn RoleAssistant (get_ai_response msg)])
             messages_history
    ++ [Turn RoleUser current_message]
  /\ length formatted = (2 * length messages_history + 1)%nat
  /\ last formatted = Some (Turn RoleUser current_message).
Proof.
  intros formatted. subst formatted.
  unfold AIService.format_conversation_history.
  rewrite fold_left_app_flat_map. simpl. split; [done|]. split.
  - rewrite length_app. simpl.
    induction messages_history as [|m l IH]; simpl; [done|]. lia.
  - by rewrite last_snoc.
Qed.

(** * The cache service *)

Ltac contained_by_cases :=
  intros w; destruct w as [? ? ? ? c ? ? ?];
  autounfold with coro;
  unfold try_except, bind, ret, raise, redis_call, get_settings;
  cbn [cache settings now];
  destruct (redis_up c); cbn [with_cache];
  repeat case_match; simplify_eq/=; by eexists _, _.

(** No method of the cache service raises, and none touches anything but
    the cache: a Redis failure is logged and turned into the method's
    fall-back answer. *)
Theorem cache_service_contained session_id interaction_id user_id sdata idata :
  contained (CacheService.cache_session session_id sdata)
  /\ contained (CacheService.get_session session_id)
  /\ contained (CacheService.delete_session session_id)
  /\ contained (CacheService.update_session_activity session_id)
  /\ contained (CacheService.cache_interaction interaction_id idata)
  /\ contained (CacheService.get_interaction interaction_id)
  /\ contained (CacheService.delete_interaction interaction_id)
  /\ contained (CacheService.check_interaction_expired interaction_id)
  /\ contained (CacheService.check_rate_limit user_id)
  /\ contained (CacheService.get_rate_limit_info user_id).
Proof.
  repeat split.
  - unfold CacheService.cache_session, redis_setex_session.
    contained_by_cases.
  - unfold CacheService.get_session, redis_get_session. contained_by_cases.
  - unfold CacheService.delete_session, redis_delete_session.
    contained_by_cases.
  - unfold CacheService.update_session_activity, redis_exists_session,
      redis_expire_session. contained_by_cases.
  - unfold CacheService.cache_interaction, redis_setex_interaction.
    contained_by_cases.
  - unfold CacheService.get_interaction, redis_get_interaction,
      redis_expire_interaction. contained_by_cases.
  - unfold CacheService.delete_interaction, redis_delete_interaction.
    contained_by_cases.
  - unfold CacheService.check_interaction_expired, redis_exists_interaction.
    contained_by_cases.
  - unfold CacheService.check_rate_limit, redis_get_rate, redis_setex_rate,
      redis_incr_rate. contained_by_cases.
  - unfold CacheService.get_rate_limit_info, redis_get_rate, redis_ttl_rate.
    contained_by_cases.
Qed.

(** A snapshot written to the session cache is read back unchanged for
    as long as the session time to live, and is gone from then on. *)
Theorem cache_session_round_trip session_id data w d :
  redis_up (cache w) = true ->
  0 < REDIS_TTL_SESSION (settings w) ->
  0 <= d ->
  let w1 := snd (CacheService.cache_session session_id data w) in
  fst (CacheService.cache_session session_id data w) = Ok true
  /\ fst (CacheService.get_session session_id (tick d w1))
     = Ok (if d <? REDIS_TTL_SESSION (settings w) then Some data else None).
Proof.
  intros Hup Httl Hd.
  unfold CacheService.cache_session, CacheService.get_session, try_except,
    bind, ret, get_settings, redis_setex_session, redis_get_session,
    redis_call.
  destruct w as [t ? s ? c ? ? ?]. cbn [cache settings now] in *.
  rewrite Hup. destruct (Z.ltb_spec 0 (REDIS_TTL_SESSION s)); [|lia].
  cbn [fst snd cache with_cache tick now with_r_sessions redis_up r_sessions].
  rewrite Hup. split; [done|]. cbn [fst].
  unfold kv_get, kv_setex, live. rewrite lookup_insert_eq. cbn [e_expires e_val].
  destruct (Z.ltb_spec (t + d) (t + REDIS_TTL_SESSION s)),
           (Z.ltb_spec d (REDIS_TTL_SESSION s)); try lia; done.
Qed.

Lemma cache_session_round_trip_witness :
  let data := {| ss_session_id := "session_9"; ss_user_id := "carol";
                 ss_interaction_ids := [];
                 ss_created_at := format_timestamp 1000;
                 ss_last_active := format_timestamp 1000 |} in
  let w1 := snd (CacheService.cache_session "session_9" data boot) in
  fst (CacheService.cache_session "session_9" data boot) = Ok true
  /\ fst (CacheService.get_session "session_9" (tick 60 w1))
     = Ok (if 60 <? REDIS_TTL_SESSION (settings boot)
           then Some data else None).
Proof.
  intros data.
  apply (cache_session_round_trip "session_9" data boot 60);
    [reflexivity | by vm_compute | lia].
Defined.

(** Reading a cached interaction renews its time to live: from the read
    on the interaction counts as expired exactly when a full interaction
    time to live has gone by. *)
Theorem get_interaction_renews_ttl interaction_id data w d :
  redis_up (cache w) = true ->
  kv_get (now w) (r_interactions (cache w)) interaction_id = Some data ->
  0 <= d ->
  let w1 := snd (CacheService.get_interaction interaction_id w) in
  fst (CacheService.get_interaction interaction_id w) = Ok (Some data)
  /\ fst (CacheService.check_interaction_expired interaction_id (tick d w1))
     = Ok (REDIS_TTL_INTERACTION (settings w) <=? d).
Proof.
  intros Hup Hget Hd.
  unfold CacheService.get_interaction, CacheService.check_interaction_expired,
    try_except, bind, ret, get_settings, redis_get_interaction,
    redis_expire_interaction, redis_exists_interaction, redis_call.
  destruct w as [t ? s ? c ? ? ?]. cbn [cache settings now] in *.
  rewrite Hup, Hget. cbn [fst snd cache with_cache redis_up].
  rewrite Hup.
  cbn [fst snd cache with_cache tick now with_r_interactions redis_up
       r_interactions].
  rewrite Hup. split; [done|]. cbn [fst]. f_equal.
  unfold kv_get in Hget. unfold kv_exists, kv_get, kv_expire.
  destruct (r_interactions c !! interaction_id) as [e|] eqn:He; [|done].
  destruct (live t e); [|done].
  rewrite lookup_insert_eq. unfold live. cbn [e_expires e_val].
  destruct (Z.ltb_spec (t + d) (t + REDIS_TTL_INTERACTION s)),
           (Z.leb_spec (REDIS_TTL_INTERACTION s) d); try lia; done.
Qed.

Lemma get_interaction_renews_ttl_witness :
  let w := tick 1000 alice_chatting in
  let w1 := snd (CacheService.get_interaction "interaction_1" w) in
  (exists data,
     fst (CacheService.get_interaction "interaction_1" w) = Ok (Some data))
  /\ fst (CacheService.check_interaction_expired "interaction_1"
            (tick 1000 w1))
     = Ok (REDIS_TTL_INTERACTION (settings w) <=? 1000).
Proof.
  intros w w1.
  destruct (kv_get (now w) (r_interactions (cache w)) "interaction_1")
    as [data|] eqn:Hget; [|by vm_compute in Hget].
  destruct (get_interaction_renews_ttl "interaction_1" data w 1000)
    as [H1 H2]; [reflexivity | exact Hget | lia |].
  split; [by exists data | exact H2].
Defined.

(** With Redis unreachable the rate-limit report falls back to no
    requests made and nothing to wait for. *)
Theorem get_rate_limit_info_down user_id w :
  redis_up (cache w) = false ->
  CacheService.get_rate_limit_info user_id w
  = (Ok {| requests_made := 0;
           requests_limit := RATE_LIMIT_REQUESTS (settings w);
           reset_in_seconds := 0 |}, w).
Proof.
  intros Hdown.
  unfold CacheService.get_rate_limit_info, try_except, bind, ret,
    get_settings, redis_get_rate, redis_call.
  by rewrite Hdown.
Qed.

Lemma get_rate_limit_info_down_witness :
  CacheService.get_rate_limit_info "alice" (set_redis_up false boot)
  = (Ok {| requests_made := 0;
           requests_limit := RATE_LIMIT_REQUESTS (settings boot);
           reset_in_seconds := 0 |}, set_redis_up false boot).
Proof.
  apply (get_rate_limit_info_down "alice" (set_redis_up false boot)).
  reflexivity.
Defined.

(** After the request that opens a window, the report counts one request
    and the seconds left of the window; once the window is over it
    counts none. *)
Theorem get_rate_limit_info_window user_id w d :
  redis_up (cache w) = true ->
  0 < RATE_LIMIT_PERIOD (settings w) ->
  kv_get (now w) (r_rate (cache w)) user_id = None ->
  0 <= d ->
  let w1 := snd (CacheService.check_rate_limit user_id w) in
  fst (CacheService.get_rate_limit_info user_id (tick d w1))
  = Ok (if d <? RATE_LIMIT_PERIOD (settings w)
        then {| requests_made := 1;
                requests_limit := RATE_LIMIT_REQUESTS (settings w);
                reset_in_seconds := RATE_LIMIT_PERIOD (settings w) - d |}
        else {| requests_made := 0;
                requests_limit := RATE_LIMIT_REQUESTS (settings w);
                reset_in_seconds := 0 |}).
Proof.
  intros Hup Hperiod Hnone Hd. cbv zeta.
  rewrite (check_rate_limit_first user_id w Hup Hperiod Hnone).
  unfold CacheService.get_rate_limit_info, try_except, bind, ret,
    get_settings, redis_get_rate, redis_ttl_rate, redis_call.
  destruct w as [t ? s ? c ? ? ?]. cbn [cache settings now] in *.
  cbn [fst snd cache with_cache tick now with_r_rate redis_up r_rate settings].
  rewrite Hup. simpl. rewrite Hup. simpl. f_equal.
  unfold kv_get, kv_ttl, live. rewrite lookup_insert_eq.
  cbn [e_expires e_val].
  destruct (Z.ltb_spec (t + d) (t + RATE_LIMIT_PERIOD s)),
           (Z.ltb_spec d (RATE_LIMIT_PERIOD s)); try lia; [|done].
  destruct (Z.ltb_spec 0 (t + RATE_LIMIT_PERIOD s - (t + d))); [|lia].
  f_equal. lia.
Qed.

Lemma get_rate_limit_info_window_witness :
  let w1 := snd (CacheService.check_rate_limit "alice" boot) in
  fst (CacheService.get_rate_limit_info "alice" (tick 10 w1))
  = Ok (if 10 <? RATE_LIMIT_PERIOD (settings boot)
        then {| requests_made := 1;
                requests_limit := RATE_LIMIT_REQUESTS (settings boot);
                reset_in_seconds := RATE_LIMIT_PERIOD (settings boot) - 10 |}
        else {| requests_made := 0;
                requests_limit := RATE_LIMIT_REQUESTS (settings boot);
                reset_in_seconds := 0 |}).
Proof.
  apply (get_rate_limit_info_window "alice" boot 10);
    [reflexivity | by vm_compute | by vm_compute | lia].
Defined.

(** A request beyond the limit is answered with 429 and the seconds left
    of the window; the chat service is not called and nothing changes. *)
Theorem send_message_rate_limited user_id message session_id interaction_id
    w c x :
  redis_up (cache w) = true ->
  rate_counter w user_id = Some (Entry c (Some x)) ->
  now w < x ->
  RATE_LIMIT_REQUESTS (settings w) <= c ->
  Routes.send_message user_id message session_id interaction_id w
  = (HTTPException 429
       ("Rate limit exceeded. Try again in " +:+ pretty (x - now w)
        +:+ " seconds"), w).
Proof.
  intros Hup Hcounter Hlive Hreached.
  unfold Routes.send_message.
  rewrite (check_rate_limit_reached user_id w c x Hup Hcounter Hlive Hreached).
  unfold CacheService.get_rate_limit_info, try_except, bind, ret,
    get_settings, redis_get_rate, redis_ttl_rate, redis_call.
  rewrite Hup. cbn [fst snd cache with_cache redis_up now].
  rewrite Hup. cbn [reset_in_seconds].
  unfold rate_counter in Hcounter. unfold kv_ttl, live. rewrite Hcounter.
  cbn [e_expires]. destruct (Z.ltb_spec (now w) x); [|lia].
  destruct (Z.ltb_spec 0 (x - now w)); [|lia].
  by destruct w as [? ? ? ? [] ? ? ?].
Qed.

Lemma send_message_rate_limited_witness :
  let w := snd (requests "alice" [0; 1] boot_limit_2) in
  Routes.send_message "alice" "hello" None None w
  = (HTTPException 429
       ("Rate limit exceeded. Try again in " +:+ pretty (4600 - now w)
        +:+ " seconds"), w).
Proof.
  intros w.
  apply (send_message_rate_limited "alice" "hello" None None w 2 4600);
    [reflexivity | by vm_compute | by vm_compute | by vm_compute].
Defined.

(** * Sessions *)




(** In every state the service can reach no two stored sessions share an
    id, and every stored session id is the session prefix followed by a
    UUID drawn earlier. *)
Theorem reachable_session_ids w :
  reachable w ->
  NoDup (map sd_session_id (sessions (db w)))
  /\ forall d, In d (sessions (db w)) ->
       exists k, (k < uuid_draws w)%nat
                 /\ sd_session_id d = "session_" +:+ uuid_stream w k.
Proof.
  intros Hreach.
  destruct (reachable_coherent w Hreach) as (Hnd & _ & Hfresh & _).
  split; [exact Hnd|]. intros d Hin. apply Hfresh. right. by apply in_map.
Qed.

Lemma reachable_session_ids_witness :
  NoDup (map sd_session_id (sessions (db alice_session_cached)))
  /\ forall d, In d (sessions (db alice_session_cached)) ->
       exists k, (k < uuid_draws alice_session_cached)%nat
                 /\ sd_session_id d
                    = "session_" +:+ uuid_stream alice_session_cached k.
Proof.
  apply (reachable_session_ids alice_session_cached).
  exact alice_session_cached_reachable.
Defined.

(** * Interactions *)

(** Deleting an interaction that is not stored under the caller's name
    is refused with "Interaction not found"; no document and no cache
    entry is touched. *)
Theorem delete_interaction_foreign user_id interaction_id w :
  mongo_up (db w) = true ->
  List.find (fun d => String.eqb (id_interaction_id d) interaction_id
                      && String.eqb (id_user_id d) user_id)
            (interactions (db w)) = None ->
  exists w1,
    ChatService.delete_interaction user_id interaction_id w
    = (Raise (ValueError "Interaction not found"), w1)
    /\ interactions (db w1) = interactions (db w)
    /\ sessions (db w1) = sessions (db w)
    /\ cache w1 = cache w.
Proof.
  intros Hmongo Hfind.
  unfold ChatService.delete_interaction, try_except, bind at 1,
    interactions_find_one, mongo_run.
  cbn [mongo_up log_call db]. rewrite Hmongo.
  cbn [interactions log_call]. rewrite Hfind.
  eexists. split; [reflexivity|]. done.
Qed.

Lemma delete_interaction_foreign_witness :
  exists w1,
    ChatService.delete_interaction "bob" "interaction_1" alice_and_bob
    = (Raise (ValueError "Interaction not found"), w1)
    /\ interactions (db w1) = interactions (db alice_and_bob)
    /\ sessions (db w1) = sessions (db alice_and_bob)
    /\ cache w1 = cache alice_and_bob.
Proof.
  apply (delete_interaction_foreign "bob" "interaction_1" alice_and_bob);
    reflexivity.
Defined.

Lemma remove_first_gone {A} (key : A -> string) (p : A -> bool) k l :
  (forall x, p x = true <-> key x = k) ->
  NoDup (map key l) ->
  ~ In k (map key (remove_first p l)).
Proof.
  intros Hp. induction l as [|x l IH]; simpl; [by intros _ []|].
  intros Hnd. apply NoDup_cons in Hnd as [Hx Hl].
  destruct (p x) eqn:Hpx.
  - apply Hp in Hpx. rewrite <- Hpx. intros Hin. apply Hx.
    by apply list_elem_of_In.
  - simpl. intros [Hk|Hin]; [|by apply IH].
    apply Hp in Hk. congruence.
Qed.

Lemma delete_interaction_effect interaction_id w :
  exists b c,
    CacheService.delete_interaction interaction_id w = (Ok b, with_cache c w)
    /\ redis_up c = redis_up (cache w)
    /\ (redis_up (cache w) = true ->
        r_interactions c = delete interaction_id (r_interactions (cache w))).
Proof.
  unfold CacheService.delete_interaction, try_except, bind,
    redis_delete_interaction, redis_call, ret.
  destruct (redis_up (cache w)) eqn:Hup; simpl.
  - eexists _, _; (split; [reflexivity|]); by simpl.
  - exists false, (cache w). by rewrite with_cache_same.
Qed.

(** When the owner deletes an interaction, with both stores reachable,
    the interaction is gone from the store and from the cache, and its
    history can no longer be read: "Interaction not found". *)
Theorem delete_interaction_then_history user_id interaction_id w i :
  mongo_up (db w) = true ->
  redis_up (cache w) = true ->
  NoDup (map id_interaction_id (interactions (db w))) ->
  List.find (fun d => String.eqb (id_interaction_id d) interaction_id
                      && String.eqb (id_user_id d) user_id)
            (interactions (db w)) = Some i ->
  exists w1,
    ChatService.delete_interaction user_id interaction_id w = (Ok true, w1)
    /\ ~ In interaction_id (map id_interaction_id (interactions (db w1)))
    /\ r_interactions (cache w1) !! interaction_id = None
    /\ forall limit,
         fst (ChatService.get_chat_history user_id interaction_id limit w1)
         = Raise (ValueError "Interaction not found").
Proof.
  intros Hmongo Hredis Hnd Hfind.
  unfold ChatService.delete_interaction, try_except, bind at 1,
    interactions_find_one, mongo_run.
  cbn [mongo_up log_call db]. rewrite Hmongo.
  cbn [interactions log_call]. rewrite Hfind.
  unfold bind at 1, interactions_delete_one, mongo_run.
  cbn [mongo_up log_call db with_db]. rewrite Hmongo.
  unfold bind at 1.
  match goal with |- context [CacheService.delete_interaction ?x ?w'] =>
    destruct (delete_interaction_effect x w') as (b & c & -> & Hup & Hdel) end.
  cbn [cache with_db] in Hup, Hdel. specialize (Hdel Hredis).
  unfold bind, sessions_update_one, mongo_run, ret.
  cbn [mongo_up log_call db with_db with_cache with_interactions].
  rewrite Hmongo. eexists. split; [reflexivity|].
  cbn [interactions sessions log_call db with_db with_cache with_sessions
       with_interactions cache].
  assert (Hgone : ~ In interaction_id
            (map id_interaction_id
               (remove_first
                  (fun d => String.eqb (id_interaction_id d) interaction_id)
                  (interactions (db w))))).
  { apply remove_first_gone; [|done]. intros x. apply String.eqb_eq. }
  assert (Hmiss : r_interactions c !! interaction_id = None).
  { rewrite Hdel. apply lookup_delete_eq. }
  split; [exact Hgone|]. split; [exact Hmiss|]. intros limit.
  unfold ChatService.get_chat_history, try_except, bind at 1,
    CacheService.get_interaction, try_except, bind, get_settings,
    redis_get_interaction, redis_call, ret.
  cbn [cache with_cache with_db]. rewrite Hup, Hredis.
  unfold kv_get. rewrite Hmiss.
  cbn [ChatService.owned_interaction].
  unfold interactions_find_one, mongo_run.
  cbn [mongo_up log_call db with_db with_cache with_sessions
       with_interactions interactions].
  rewrite Hmongo.
  match goal with |- context [List.find ?p ?l] =>
    destruct (List.find p l) as [x|] eqn:Hx end; [|done].
  exfalso. apply find_some in Hx as [Hin Hp].
  apply andb_true_iff in Hp as [Hp _]. apply String.eqb_eq in Hp.
  apply Hgone. rewrite <- Hp at 1. apply in_map. exact Hin.
Qed.

Lemma delete_interaction_then_history_witness :
  exists w1,
    ChatService.delete_interaction "alice" "interaction_1" alice_chatting
    = (Ok true, w1)
    /\ ~ In "interaction_1" (map id_interaction_id (interactions (db w1)))
    /\ r_interactions (cache w1) !! "interaction_1" = None
    /\ forall limit,
         fst (ChatService.get_chat_history "alice" "interaction_1" limit w1)
         = Raise (ValueError "Interaction not found").
Proof.
  destruct (List.find
              (fun d => String.eqb (id_interaction_id d) "interaction_1"
                        && String.eqb (id_user_id d) "alice")
              (interactions (db alice_chatting))) as [i|] eqn:Hfind;
    [|by vm_compute in Hfind].
  apply (delete_interaction_then_history "alice" "interaction_1"
           alice_chatting i); [reflexivity | reflexivity | | exact Hfind].
  vm_compute. apply NoDup_cons. split; [by intros ?%elem_of_nil|].
  apply NoDup_nil_2.
Defined.

(** * Routes on sessions *)

Lemma cache_get_session_outcome session_id w :
  exists r,
    CacheService.get_session session_id w = (Ok r, w)
    /\ (r = None \/ r = kv_get (now w) (r_sessions (cache w)) session_id).
Proof.
  unfold CacheService.get_session, try_except, redis_get_session, redis_call,
    ret.
  destruct w as [t ? s ? c ? ? ?]. cbn [cache now with_cache].
  destruct (redis_up c) eqn:Hup; eexists; (split; [reflexivity|]); eauto.
Qed.

Lemma get_session_absent session_id user_id w :
  (forall c, kv_get (now w) (r_sessions (cache w)) session_id = Some c ->
             ss_user_id c <> user_id) ->
  List.find (fun x => String.eqb (sd_session_id x) session_id
                      && String.eqb (sd_user_id x) user_id)
            (sessions (db w)) = None ->
  exists w1,
    ChatService.get_session session_id user_id w = (Ok None, w1)
    /\ sessions (db w1) = sessions (db w)
    /\ interactions (db w1) = interactions (db w)
    /\ cache w1 = cache w.
Proof.
  intros Hforeign Hfind.
  destruct (cache_get_session_outcome session_id w) as (r & Hget & Hr).
  assert (Hown : ChatService.owned_session r user_id = false).
  { destruct Hr as [->| ->]; [done|].
    destruct (kv_get _ _ _) as [c|] eqn:Hc; [|done]. simpl.
    apply String.eqb_neq. by apply Hforeign. }
  unfold ChatService.get_session, try_except, bind at 1. rewrite Hget, Hown.
  unfold ChatService.get_session_fallback, bind at 1, sessions_find_one,
    mongo_run, ret.
  cbn [mongo_up log_call db sessions].
  destruct (mongo_up (db w)); [rewrite Hfind|]; by eexists.
Qed.

Lemma get_session_miss session_id user_id w d :
  mongo_up (db w) = true ->
  kv_get (now w) (r_sessions (cache w)) session_id = None ->
  List.find (fun x => String.eqb (sd_session_id x) session_id
                      && String.eqb (sd_user_id x) user_id)
            (sessions (db w)) = Some d ->
  exists s, fst (ChatService.get_session session_id user_id w) = Ok (Some s).
Proof.
  intros Hmongo Hmiss Hfind.
  destruct (cache_get_session_outcome session_id w) as (r & Hget & Hr).
  assert (r = None) as -> by (destruct Hr; congruence).
  unfold ChatService.get_session, try_except, bind at 1. rewrite Hget.
  cbn [ChatService.owned_session].
  unfold ChatService.get_session_fallback, bind at 1, sessions_find_one,
    mongo_run. simpl. rewrite Hmongo, Hfind. simpl.
  unfold bind, get_current_timestamp, sessions_update_one, mongo_run. simpl.
  rewrite Hmongo. simpl.
  match goal with |- context [CacheService.cache_session ?i ?sn ?w'] =>
    destruct (cache_session_effect i sn w') as (b & c & -> & _) end.
  by eexists.
Qed.

Lemma delete_all_ok user_id interaction_ids w :
  fst (Routes.delete_all user_id interaction_ids w) = Ok tt.
Proof.
  revert w. induction interaction_ids as [|i l IH]; intros w; [done|].
  cbn [Routes.delete_all]. unfold bind at 1, try_except at 1.
  destruct ((ChatService.delete_interaction user_id i ;;; ret tt) w)
    as [[[]|e] w1]; apply IH.
Qed.

Section DeleteAllFrame.
Context {B : Type} (obs : world -> B).
Hypothesis delete_interaction_keeps : forall user_id interaction_id,
  respects (keeps obs) (ChatService.delete_interaction user_id interaction_id).

Lemma delete_all_keeps user_id interaction_ids :
  respects (keeps obs) (Routes.delete_all user_id interaction_ids).
Proof.
  induction interaction_ids as [|i l IH]; cbn [Routes.delete_all].
  - apply respects_ret; apply _.
  - apply respects_bind; [apply _ | | intros ?; exact IH].
    apply respects_try_except;
      [apply _ | | intros ?; apply respects_ret; apply _].
    apply respects_bind; [apply _ | | intros ?; apply respects_ret; apply _].
    apply delete_interaction_keeps.
Qed.
End DeleteAllFrame.

Lemma delete_all_keeps_mongo_up user_id interaction_ids :
  respects (keeps (fun w => mongo_up (db w)))
           (Routes.delete_all user_id interaction_ids).
Proof. apply delete_all_keeps. intros. frame. Qed.

Lemma delete_all_keeps_redis_up user_id interaction_ids :
  respects (keeps (fun w => redis_up (cache w)))
           (Routes.delete_all user_id interaction_ids).
Proof. apply delete_all_keeps. intros. frame. Qed.

Lemma get_session_keeps_mongo_up session_id user_id :
  respects (keeps (fun w => mongo_up (db w)))
           (ChatService.get_session session_id user_id).
Proof. frame. Qed.

Lemma get_session_keeps_redis_up session_id user_id :
  respects (keeps (fun w => redis_up (cache w)))
           (ChatService.get_session session_id user_id).
Proof. frame. Qed.

(** In a state the service can reach, with both stores up, deleting a
    session by its owner succeeds and leaves no document and no cache
    entry under its id: the owner's next lookup finds nothing. *)
Theorem delete_session_removes user_id session_id w d :
  reachable w ->
  mongo_up (db w) = true ->
  redis_up (cache w) = true ->
  In d (sessions (db w)) ->
  sd_session_id d = session_id ->
  sd_user_id d = user_id ->
  exists w1,
    Routes.delete_session user_id session_id w
    = (Success session_id "Session deleted successfully", w1)
    /\ ~ In session_id (map sd_session_id (sessions (db w1)))
    /\ r_sessions (cache w1) !! session_id = None
    /\ fst (ChatService.get_session session_id user_id w1) = Ok None.
Proof.
  intros Hreach Hmongo Hredis Hin Hsid Hown.
  pose proof (reachable_coherent w Hreach) as Hw.
  assert (Hfound : exists s,
            fst (ChatService.get_session session_id user_id w) = Ok (Some s)).
  { destruct Hw as (Hnd & Hag & _ & _).
    destruct (kv_get (now w) (r_sessions (cache w)) session_id) as [c|]
      eqn:Hhit.
    - exists c. apply get_session_from_cache; [done | done |].
      unfold kv_get in Hhit.
      destruct (r_sessions (cache w) !! session_id) as [e|] eqn:He; [|done].
      destruct (live (now w) e); [|done]. injection Hhit as <-.
      destruct (Hag session_id e He) as [_ Hd].
      destruct (Hd d Hin Hsid) as [Hu _]. congruence.
    - eapply get_session_miss; [done | done |].
      by apply find_session_stored. }
  destruct Hfound as [s Hs].
  pose proof (stable_get_session session_id user_id w Hw) as Hw1.
  pose proof (get_session_keeps_mongo_up session_id user_id w) as Hmongo1.
  pose proof (get_session_keeps_redis_up session_id user_id w) as Hredis1.
  unfold Routes.delete_session.
  destruct (ChatService.get_session session_id user_id w) as [r w1].
  unfold keeps in Hmongo1, Hredis1.
  cbn [fst snd] in Hs, Hw1, Hmongo1, Hredis1. subst r.
  rewrite Hmongo in Hmongo1. rewrite Hredis in Hredis1.
  unfold bind at 1.
  pose proof (delete_all_ok user_id (ss_interaction_ids s) w1) as Hok.
  pose proof (stable_delete_all user_id (ss_interaction_ids s) w1 Hw1) as Hw2.
  pose proof (delete_all_keeps_mongo_up user_id (ss_interaction_ids s) w1)
    as Hmongo2.
  pose proof (delete_all_keeps_redis_up user_id (ss_interaction_ids s) w1)
    as Hredis2.
  destruct (Routes.delete_all user_id (ss_interaction_ids s) w1) as [r w2].
  unfold keeps in Hmongo2, Hredis2.
  cbn [fst snd] in Hok, Hw2, Hmongo2, Hredis2. subst r.
  rewrite Hmongo1 in Hmongo2. rewrite Hredis1 in Hredis2.
  unfold bind at 1, sessions_delete_one, mongo_run.
  cbn [mongo_up log_call db]. rewrite Hmongo2.
  match goal with |- context [CacheService.delete_session ?x ?w'] =>
    destruct (delete_session_effect x w') as (b & c & -> & Hupc & Hdel) end.
  cbn [cache with_db] in Hupc, Hdel. specialize (Hdel Hredis2).
  eexists. split; [reflexivity|].
  cbn [sessions cache db with_cache with_db with_sessions log_call].
  assert (Hgone : ~ In session_id
            (map sd_session_id
               (remove_first
                  (fun x => String.eqb (sd_session_id x) session_id)
                  (sessions (db w2))))).
  { apply remove_first_gone; [|apply Hw2]. intros x. apply String.eqb_eq. }
  assert (Hmiss : r_sessions c !! session_id = None).
  { rewrite Hdel. apply lookup_delete_eq. }
  split; [exact Hgone|]. split; [exact Hmiss|].
  match goal with |- fst (_ _ _ ?w') = _ =>
    destruct (get_session_absent session_id user_id w') as (w3 & -> & _) end;
    [| |done].
  - intros c0. cbn [cache with_cache r_sessions].
    unfold kv_get. by rewrite Hmiss.
  - cbn [sessions cache db with_cache with_db with_sessions log_call].
    match goal with |- List.find ?p ?l = _ =>
      destruct (List.find p l) as [x|] eqn:Hx end; [|done].
    exfalso. apply find_some in Hx as [Hinx Hp].
    apply andb_true_iff in Hp as [Hp _]. apply String.eqb_eq in Hp.
    apply Hgone. rewrite <- Hp at 1. apply in_map. exact Hinx.
Qed.

Lemma delete_session_removes_witness :
  exists w1,
    Routes.delete_session "alice" "session_0" alice_session_cached
    = (Success "session_0" "Session deleted successfully", w1)
    /\ ~ In "session_0" (map sd_session_id (sessions (db w1)))
    /\ r_sessions (cache w1) !! "session_0" = None
    /\ fst (ChatService.get_session "session_0" "alice" w1) = Ok None.
Proof.
  apply (delete_session_removes "alice" "session_0" alice_session_cached
           {| sd_session_id := "session_0"; sd_user_id := "alice";
              sd_interaction_ids := ["interaction_1"];
              sd_created_at := 1000; sd_last_active := 1000;
              sd_is_active := true |});
    [exact alice_session_cached_reachable | reflexivity | reflexivity
    | vm_compute; by left | reflexivity | reflexivity].
Defined.

(** Asking for a new interaction in a session that is neither cached
    nor stored under the caller's name is answered with 404, whatever
    the state of the stores, and creates nothing. *)
Theorem create_new_interaction_foreign user_id session_id w :
  (forall c, kv_get (now w) (r_sessions (cache w)) session_id = Some c ->
             ss_user_id c <> user_id) ->
  List.find (fun x => String.eqb (sd_session_id x) session_id
                      && String.eqb (sd_user_id x) user_id)
            (sessions (db w)) = None ->
  exists w1,
    Routes.create_new_interaction user_id session_id w
    = (HTTPException 404 "Session not found or does not belong to user", w1)
    /\ interactions (db w1) = interactions (db w)
    /\ sessions (db w1) = sessions (db w)
    /\ cache w1 = cache w.
Proof.
  intros Hforeign Hfind. unfold Routes.create_new_interaction.
  destruct (get_session_absent session_id user_id w Hforeign Hfind)
    as (w1 & -> & Hs & Hi & Hc).
  by exists w1.
Qed.

Lemma create_new_interaction_foreign_witness :
  exists w1,
    Routes.create_new_interaction "bob" "session_0" alice_session_cached
    = (HTTPException 404 "Session not found or does not belong to user", w1)
    /\ interactions (db w1) = interactions (db alice_session_cached)
    /\ sessions (db w1) = sessions (db alice_session_cached)
    /\ cache w1 = cache alice_session_cached.
Proof.
  apply (create_new_interaction_foreign "bob" "session_0"
           alice_session_cached).
  - intros c Hc. vm_compute in Hc. injection Hc as <-. discriminate.
  - reflexivity.
Defined.

(** * Routes on messages *)




(** For a limit of at least one, a history that is served holds the
    number of messages asked for, capped at 500 and at the number the
    interaction has; the total it reports is that of the interaction,
    not of the page. *)
Theorem get_chat_history_page user_id interaction_id limit w history message :
  1 <= limit ->
  fst (Routes.get_chat_history user_id interaction_id limit w)
  = Success history message ->
  Z.of_nat (length (ch_messages history))
  = Z.min (Z.min limit 500) (ch_total_messages history).
Proof.
  intros Hlimit. unfold Routes.get_chat_history.
  assert (Hcap : 1 <= Z.min limit 500) by lia.
  revert Hcap. generalize (Z.min limit 500) as n. intros n Hn.
  destruct (ChatService.get_chat_history user_id interaction_id n w)
    as [[h|e] w1] eqn:Hcall; [|by destruct e]. cbn [fst].
  intros [= <- _]. revert Hcall.
  unfold ChatService.get_chat_history, try_except, bind at 1.
  destruct (CacheService.get_interaction interaction_id w) as [[r|e] w0];
    [|by intros [=]].
  destruct (ChatService.owned_interaction r user_id) as [c|].
  - unfold bind, get_current_timestamp, ret. intros [= <- _].
    cbn [ch_messages ch_total_messages].
    by destruct (py_slice_from_tail n (is_messages c) Hn) as [_ ->].
  - unfold bind, interactions_find_one, mongo_run, ret, raise.
    cbn [mongo_up log_call db].
    destruct (mongo_up (db w0)); [|by intros [=]].
    cbn [interactions log_call].
    destruct (List.find _ _) as [i|]; [|by intros [=]].
    intros [= <- _]. cbn [ch_messages ch_total_messages].
    rewrite length_map.
    by destruct (py_slice_from_tail n (id_messages i) Hn) as [_ ->].
Qed.

Lemma get_chat_history_page_witness :
  exists history message,
    fst (Routes.get_chat_history "alice" "interaction_1" 2
           alice_three_messages) = Success history message
    /\ Z.of_nat (length (ch_messages history))
       = Z.min (Z.min 2 500) (ch_total_messages history).
Proof.
  destruct (fst (Routes.get_chat_history "alice" "interaction_1" 2
                   alice_three_messages)) as [history message| |] eqn:Hcall;
    [|by vm_compute in Hcall..].
  exists history, message. split; [reflexivity|].
  apply (get_chat_history_page "alice" "interaction_1" 2
           alice_three_messages history message); [lia | exact Hcall].
Defined.

(** A lookup served from the session cache renews the entry's time to
    live: from then on the snapshot stays cached for exactly one session
    time to live. *)
Theorem get_session_renews_ttl session_id user_id w c d :
  redis_up (cache w) = true ->
  kv_get (now w) (r_sessions (cache w)) session_id = Some c ->
  ss_user_id c = user_id ->
  0 <= d ->
  let w1 := snd (ChatService.get_session session_id user_id w) in
  kv_get (now w + d) (r_sessions (cache w1)) session_id
  = if d <? REDIS_TTL_SESSION (settings w) then Some c else None.
Proof.
  intros Hredis Hhit Hown Hd.
  assert (Hget : CacheService.get_session session_id w = (Ok (Some c), w)).
  { unfold CacheService.get_session, try_except, redis_get_session,
      redis_call, ret. rewrite Hredis, Hhit.
    by destruct w as [? ? ? ? [] ? ? ?]. }
  unfold ChatService.get_session, try_except, bind at 1. rewrite Hget.
  cbn [ChatService.owned_session]. rewrite Hown, String.eqb_refl.
  unfold bind, CacheService.update_session_activity, try_except, bind,
    get_settings, redis_exists_session, redis_expire_session, redis_call, ret.
  rewrite Hredis. unfold kv_exists. rewrite Hhit.
  cbn [fst snd cache with_cache]. rewrite Hredis.
  cbn [fst snd cache with_cache r_sessions with_r_sessions].
  cbn [now with_cache].
  unfold kv_get in Hhit. unfold kv_get, kv_expire.
  destruct (r_sessions (cache w) !! session_id) as [e|] eqn:He; [|done].
  destruct (live (now w) e) eqn:Hlive; [|done]. injection Hhit as <-.
  cbv beta iota.
  rewrite lookup_insert_eq. unfold live. cbn [e_expires e_val].
  destruct (Z.ltb_spec (now w + d) (now w + REDIS_TTL_SESSION (settings w))),
           (Z.ltb_spec d (REDIS_TTL_SESSION (settings w))); try lia; done.
Qed.

Lemma get_session_renews_ttl_witness :
  let w := tick 3600 alice_session_cached in
  let w1 := snd (ChatService.get_session "session_0" "alice" w) in
  exists c,
    kv_get (now w) (r_sessions (cache w)) "session_0" = Some c
    /\ kv_get (now w + 60) (r_sessions (cache w1)) "session_0"
       = if 60 <? REDIS_TTL_SESSION (settings w) then Some c else None.
Proof.
  intros w w1.
  destruct (kv_get (now w) (r_sessions (cache w)) "session_0") as [c|]
    eqn:Hhit; [|by vm_compute in Hhit].
  exists c. split; [reflexivity|].
  apply (get_session_renews_ttl "session_0" "alice" w c 60);
    [reflexivity | exact Hhit | | lia].
  vm_compute in Hhit. by injection Hhit as <-.
Defined.
